(** * fastapi-carsales: the service layer, embedded and checked against its specification

    The development follows the layering of the application:
    - [core/exceptions.py], [core/redis.py], [core/security.py], [core/dependencies.py];
    - [models/] (the rows the services read and write) and the SQLAlchemy session;
    - [services/user.py], [services/auth.py], [services/storage.py],
      [services/profile.py], [services/seller_application.py].

    Service methods are Python coroutines that read and mutate the outside world
    (Redis, the database session, MinIO, the HTTP response) and may raise.  They are
    embedded as functions in a state-and-exception monad [M] over a [World] record;
    an exception keeps the world as it was when it was raised.  Third-party library
    functions (python-jose, json, bcrypt, python-magic, Pillow, pyclamd, slugify) are
    the fields of the [Platform] class and stay abstract. *)

From Stdlib Require Import ZArith String Ascii List Bool Lia.
From stdpp Require Import base option list gmap strings pretty.

Open Scope Z_scope.

(** ** Exceptions *)

(** [BaseCustomException], [TokenAuthException] and [FileUploadException] are the
    classes of core/exceptions.py; the others are the library exceptions that the
    services name in an [except] clause or that Python itself raises. *)
Inductive exn : Type :=
  | BaseCustomException (status_code : Z) (error description : string)
  | TokenAuthException (description : string)
  | FileUploadException (description : string)
  | JWTError
  | sqlalchemy_IntegrityError
  | sqlalchemy_ProgrammingError
  | sqlalchemy_DBAPIError
  | psycopg2_IntegrityError
  | S3Error
  | clamd_ConnectionError (detail : string)
  | RedisError
  | ResponseError
  | JSONDecodeError
  | TypeError (detail : string)
  | ValueError (detail : string)
  | AttributeError (detail : string)
  | Exception (detail : string).

(** [isinstance(e, BaseCustomException)]: the two subclasses call
    [super().__init__] with a fixed status code and error label. *)
Definition isinstance_BaseCustomException (e : exn) : bool :=
  match e with
  | BaseCustomException _ _ _ | TokenAuthException _ | FileUploadException _ => true
  | _ => false
  end.

Definition status_code (e : exn) : option Z :=
  match e with
  | BaseCustomException c _ _ => Some c
  | TokenAuthException _ => Some 401
  | FileUploadException _ => Some 400
  | _ => None
  end.

Definition error (e : exn) : option string :=
  match e with
  | BaseCustomException _ l _ => Some l
  | TokenAuthException _ => Some "Authentication Error"%string
  | FileUploadException _ => Some "File Upload Error"%string
  | _ => None
  end.

Definition description (e : exn) : option string :=
  match e with
  | BaseCustomException _ _ d | TokenAuthException d | FileUploadException d => Some d
  | _ => None
  end.

Inductive result (A : Type) : Type :=
  | Return (a : A)
  | Raise (e : exn).
Arguments Return {A} a.
Arguments Raise {A} e.

(** ** Models (models/user.py, models/seller_application.py) *)

Inductive UserRole := ADMIN | SELLER | BUYER.

Module User.
(** The columns of [users] that the services read or write. *)
Record t := mk
  { id : string; email : string; password_hash : string;
    role : UserRole; is_active : bool }.
Definition set_email (v : string) (u : t) : t :=
  mk (id u) v (password_hash u) (role u) (is_active u).
Definition set_role (v : UserRole) (u : t) : t :=
  mk (id u) (email u) (password_hash u) v (is_active u).
Definition set_is_active (v : bool) (u : t) : t :=
  mk (id u) (email u) (password_hash u) (role u) v.
End User.

Module Profile.
(** The columns of [profiles]; the row is identified by its unique [user_id]. *)
Record t := mk
  { user_id : option string; slug : option string; full_name : option string;
    phone : option string; city : option string; state : option string;
    country : option string;
    picture_filename : option string; picture_mime : option string }.
Definition set_user_id (v : option string) (p : t) : t :=
  mk v (slug p) (full_name p) (phone p) (city p) (state p) (country p)
     (picture_filename p) (picture_mime p).
Definition set_slug (v : string) (p : t) : t :=
  mk (user_id p) (Some v) (full_name p) (phone p) (city p) (state p) (country p)
     (picture_filename p) (picture_mime p).
Definition set_picture (name mime : string) (p : t) : t :=
  mk (user_id p) (slug p) (full_name p) (phone p) (city p) (state p) (country p)
     (Some name) (Some mime).
End Profile.

(** The repository has two enumerations called [SellerApplicationStatus]:
    models/seller_application.py declares a plain [Enum], the type of the
    [status] column; schema/seller_application.py declares a [(str, Enum)], the
    type of the request body and the class that services/seller_application.py
    imports.  A [status] attribute holds a member of either class. *)
Inductive SellerApplicationStatus := PENDING | APPROVED | REJECTED.

Inductive status_value :=
  | models_status (s : SellerApplicationStatus)
  | schema_status (s : SellerApplicationStatus).

Global Instance SellerApplicationStatus_eq_dec : EqDecision SellerApplicationStatus.
Proof. solve_decision. Defined.
Global Instance status_value_eq_dec : EqDecision status_value.
Proof. solve_decision. Defined.
Global Instance UserRole_eq_dec : EqDecision UserRole.
Proof. solve_decision. Defined.

(** Python [a == b] on two status members.  [Enum] defines no [__eq__], so
    members of the models enumeration are equal only to themselves; the schema
    enumeration inherits [str.__eq__], which answers NotImplemented for an
    operand that is not a [str].  Members of the two classes are therefore
    never equal, whatever their names. *)
Definition status_eq (a b : status_value) : bool :=
  match a, b with
  | models_status x, models_status y => bool_decide (x = y)
  | schema_status x, schema_status y => bool_decide (x = y)
  | _, _ => false
  end.

(** Python [a is b]: members are singletons of their class. *)
Definition status_is (a b : status_value) : bool := bool_decide (a = b).

Module SellerApplication.
(** The mapped object; [status] is whatever Python value the attribute holds. *)
Record t := mk
  { id : string; user_id : string; details : string; status : status_value;
    reviewed_by : option string; admin_notes : option string;
    reviewed_at : option Z }.
(** The stored row; the column type is the models enumeration. *)
Record row := mk_row
  { row_id : string; row_user_id : string; row_details : string;
    row_status : SellerApplicationStatus;
    row_reviewed_by : option string; row_admin_notes : option string;
    row_reviewed_at : option Z }.
(** Loading a row: the column's result processor yields models members. *)
Definition load (r : row) : t :=
  mk (row_id r) (row_user_id r) (row_details r) (models_status (row_status r))
     (row_reviewed_by r) (row_admin_notes r) (row_reviewed_at r).
End SellerApplication.

Module SellerApplicationReview.
(** The body of a review request (schema/seller_application.py); [status] is
    a member of the schema enumeration. *)
Record t := mk { status : SellerApplicationStatus; admin_notes : option string }.
End SellerApplicationReview.

Record Database := mk_Database
  { users : gmap string User.t;
    profiles : gmap string Profile.t;
    seller_applications : gmap string SellerApplication.row }.

(** ** The outside world *)

(** Redis: each key holds its value and the TTL given to SETEX.  [connected]
    tells whether a command reaches the server; a command on a lost connection
    raises. *)
Record Redis := mk_Redis
  { entries : gmap string (Z * string); connected : bool }.

(** MinIO bucket of the storage service: object name to bytes and content type. *)
Record Minio := mk_Minio
  { objects : gmap string (list Byte.byte * string); reachable : bool }.

(** What the handlers do to the [Response] object. *)
Inductive cookie_op :=
  | set_cookie (key value : string) (httponly : bool)
  | delete_cookie (key : string).

(** The unit of work of an [AsyncSession]: objects added or modified since the
    last commit, oldest first. *)
Inductive change :=
  | add_user (u : User.t) (p : Profile.t)
  | dirty_user (u : User.t)
  | dirty_profile (p : Profile.t)
  | dirty_application (a : SellerApplication.t).

Record AsyncSession := mk_AsyncSession
  { database : Database; pending : list change }.

Record World := mk_World
  { redis : Redis; session : AsyncSession; minio : Minio;
    response : list cookie_op }.

Definition set_redis (r : Redis) (w : World) : World :=
  mk_World r (session w) (minio w) (response w).
Definition set_session (s : AsyncSession) (w : World) : World :=
  mk_World (redis w) s (minio w) (response w).
Definition set_minio (m : Minio) (w : World) : World :=
  mk_World (redis w) (session w) m (response w).
Definition set_response (r : list cookie_op) (w : World) : World :=
  mk_World (redis w) (session w) (minio w) r.

(** ** The monad of service code *)

Definition M (A : Type) : Type := World -> result A * World.

Definition ret {A} (a : A) : M A := fun w => (Return a, w).
Definition raise {A} (e : exn) : M A := fun w => (Raise e, w).
Definition bind {A B} (m : M A) (k : A -> M B) : M B :=
  fun w => match m w with
           | (Return a, w') => k a w'
           | (Raise e, w') => (Raise e, w')
           end.

(** [try: body except ...: handler]: [handler e] is [None] when no clause
    matches [e], which then propagates. *)
Definition try_except {A} (body : M A) (handler : exn -> option (M A)) : M A :=
  fun w => match body w with
           | (Return a, w') => (Return a, w')
           | (Raise e, w') =>
               match handler e with
               | Some h => h w'
               | None => (Raise e, w')
               end
           end.

Notation "'let*' x ':=' m 'in' k" := (bind m (fun x => k))
  (at level 10, x name, m at level 100, k at level 200).

(** Python truth value of a [str] and of an [int]. *)
Definition str_bool (s : string) : bool := negb (bool_decide (s = ""%string)).
Definition int_bool (n : Z) : bool := negb (n =? 0).

(** Calling an [async def] without awaiting it only builds a coroutine object;
    the body never runs and the world is not touched. *)
Definition unawaited {A} (coroutine : M A) : M unit := ret tt.

(** ** Python and library values *)

(** What [AsyncSession.scalars] returns.  The class defines neither [__bool__]
    nor [__len__], so the truth value of a result object is [True] whether or
    not it holds rows; the rows are reached through [first()] or [all()]. *)
Record ScalarResult (A : Type) := mk_ScalarResult { rows : list A }.
Arguments mk_ScalarResult {A} rows.
Arguments rows {A} _.

Definition ScalarResult_bool {A} (r : ScalarResult A) : bool := true.
Definition first {A} (r : ScalarResult A) : option A := head (rows r).

(** [s.split("/")[-1]]: what follows the last slash. *)
Fixpoint last_segment (acc s : string) : string :=
  match s with
  | EmptyString => acc
  | String c s' =>
      if Ascii.eqb c "/" then last_segment EmptyString s'
      else last_segment (acc +:+ String c EmptyString) s'
  end.

(** [s.replace(old, new)].  For a non-empty [old], occurrences are replaced
    from the left and do not overlap; [skip] counts the characters of a match
    still to be dropped.  An empty [old] matches before every character and at
    the end. *)
Fixpoint replace_from (old new : string) (skip : nat) (s : string) : string :=
  match s with
  | EmptyString => EmptyString
  | String c s' =>
      match skip with
      | S k => replace_from old new k s'
      | O =>
          if String.prefix old s
          then new +:+ replace_from old new (Nat.pred (String.length old)) s'
          else String c (replace_from old new O s')
      end
  end.

Fixpoint replace_empty (new s : string) : string :=
  match s with
  | EmptyString => new
  | String c s' => new +:+ String c (replace_empty new s')
  end.

Definition replace (old new s : string) : string :=
  match old with
  | EmptyString => replace_empty new s
  | String _ _ => replace_from old new O s
  end.

(** ** Third-party libraries and configuration *)

(** The fields of [Settings] (core/config.py) that the services read. *)
Record Settings := mk_Settings
  { ACCESS_TOKEN_EXPIRE_MINUTES : Z;
    REFRESH_TOKEN_EXPIRE_DAYS : Z;
    MAX_UPLOAD_SIZE : Z;
    ALLOWED_IMAGE_MIMES : list string;
    PROFILE_UPLOAD_BUCKET : string;
    MINIO_ENDPOINT : string;
    VARNISH_URL : string }.

(** The dictionary handed to [jwt.encode] and returned by [jwt.decode]. *)
Record Claims := mk_Claims
  { sub : option string; exp : option Z; iat : option Z; type : option string }.

(** A value decoded by [json.loads]: a [str], or anything else. *)
Inductive json := json_str (s : string) | json_other.

Global Instance json_eq_dec : EqDecision json.
Proof. solve_decision. Defined.

(** The second argument of [create_access_token] and [create_refresh_token] is
    annotated [Optional[timedelta]]; callers also pass plain integers. *)
Inductive delta := timedelta (seconds : Z) | int_value (n : Z).

(** The verdict of [ClamdNetworkSocket.scan_stream]: [None] for a clean stream,
    else a dictionary such as [{'stream': ('FOUND', 'Eicar-Test-Signature')}]. *)
Definition scan_verdict := option (gmap string (string * string)).

Class Platform := mk_Platform
  { settings : Settings;
    (** [json.dumps] and [json.loads]; [None] when [json.loads] raises *)
    json_dumps : json -> string;
    json_loads : string -> option json;
    (** [jwt.encode(claims, secret, algorithm)] and, at the time of the call,
        [jwt.decode(token, secret, algorithms)]; [None] when it raises
        [JWTError] (bad signature, expired, malformed) *)
    jwt_encode : Claims -> string;
    jwt_decode : string -> option Claims;
    (** bcrypt *)
    hash_password : string -> string;
    verify_password : string -> string -> bool;
    (** [slugify(text, separator="-")] of python-slugify *)
    slugify : string -> string;
    (** [magic.Magic(mime=True).from_buffer] *)
    magic_from_buffer : list Byte.byte -> string;
    (** [Image.open(BytesIO(contents)).verify()]: [false] when it raises *)
    image_verify : list Byte.byte -> bool;
    (** the ClamAV daemon *)
    scan_stream : list Byte.byte -> result scan_verdict;
    (** [Minio.presigned_get_object(bucket, name, expires)] *)
    presigned_get_object : string -> Z -> string;
    (** [str(e)] *)
    str_of_exn : exn -> string;
    (** What the [Enum] column and PostgreSQL make of a member of the schema
        enumeration bound to [status] at flush: the label stored, or [None]
        when the flush raises. *)
    bind_schema_status : SellerApplicationStatus -> option SellerApplicationStatus;
    (** The largest expiry, in seconds, that the Redis server accepts at the
        time of the call: one that does not carry the key past the last
        millisecond of its 64-bit clock. *)
    max_expire : Z }.

Section Services.
Context `{!Platform}.

(** ** core/redis.py *)

(** SETEX takes an expiry that is positive and within the range of the
    server; any other is answered with "invalid expire time", which the client
    raises as [ResponseError], and nothing is stored. *)
Definition setex_accepts (expire : Z) : bool :=
  (0 <? expire) && (expire <=? max_expire).

(** The three commands of the Redis client that the cache helpers use. *)
Definition client_setex (key : string) (expire : Z) (value : string) : M unit :=
  fun w =>
    if connected (redis w)
    then if setex_accepts expire
         then (Return tt,
               set_redis (mk_Redis (<[key := (expire, value)]> (entries (redis w))) true) w)
         else (Raise ResponseError, w)
    else (Raise RedisError, w).

Definition client_get (key : string) : M (option string) :=
  fun w =>
    if connected (redis w)
    then (Return (snd <$> entries (redis w) !! key), w)
    else (Raise RedisError, w).

(** [DEL key] answers the number of keys removed. *)
Definition client_delete (key : string) : M Z :=
  fun w =>
    if connected (redis w)
    then (Return (match entries (redis w) !! key with Some _ => 1 | None => 0 end),
          set_redis (mk_Redis (base.delete key (entries (redis w))) true) w)
    else (Raise RedisError, w).

Definition cache_set (key : string) (value : json) (expire : Z) : M bool :=
  try_except
    (let serialized_value := json_dumps value in
     let* _ := client_setex key expire serialized_value in
     ret true)
    (fun e => Some (ret false)).

Definition cache_get (key : string) : M (option json) :=
  try_except
    (let* value := client_get key in
     match value with
     | Some v =>
         if str_bool v
         then match json_loads v with
              | Some x => ret (Some x)
              | None => raise JSONDecodeError
              end
         else ret None
     | None => ret None
     end)
    (fun e => Some (ret None)).

(** The answer of [client.delete] is dropped: the helper returns [True] unless
    the command raised. *)
Definition cache_delete (key : string) : M bool :=
  try_except
    (let* _ := client_delete key in
     ret true)
    (fun e => Some (ret false)).

(** ** core/security.py *)

(** [datetime.now(timezone.utc) + expires_delta], in seconds. *)
Definition datetime_add (now : Z) (d : delta) : M Z :=
  match d with
  | timedelta s => ret (now + s)
  | int_value _ =>
      raise (TypeError "unsupported operand type(s) for +: 'datetime.datetime' and 'int'")
  end.

Definition create_access_token (now : Z) (user_id : string)
    (expires_delta : option delta) : M string :=
  let expires_delta :=
    match expires_delta with
    | None => timedelta (ACCESS_TOKEN_EXPIRE_MINUTES settings * 60)
    | Some d => d
    end in
  let* expire := datetime_add now expires_delta in
  let to_encode := mk_Claims (Some user_id) (Some expire) (Some now) (Some "access"%string) in
  ret (jwt_encode to_encode).

Definition create_refresh_token (now : Z) (user_id : string)
    (expires_delta : option delta) : M string :=
  let expires_delta :=
    match expires_delta with
    | None => timedelta (REFRESH_TOKEN_EXPIRE_DAYS settings * 86400)
    | Some d => d
    end in
  let* expire := datetime_add now expires_delta in
  let to_encode := mk_Claims (Some user_id) (Some expire) (Some now) (Some "refresh"%string) in
  ret (jwt_encode to_encode).

(** ** The SQLAlchemy session (core/database.py: [autoflush=False]) *)

Definition all_users (db : Database) : list User.t := (map_to_list (users db)).*2.
Definition all_profiles (db : Database) : list Profile.t := (map_to_list (profiles db)).*2.

(** [select(User).where(User.email == email)] *)
Definition select_user_where_email (email : string) : M (ScalarResult User.t) :=
  fun w =>
    (Return (mk_ScalarResult
               (filter (fun u => User.email u = email) (all_users (database (session w))))),
     w).

(** [select(exists()).where(User.email == email)].  The [exists()] is given no
    inner statement, so the statement that reaches the server is an EXISTS over
    a star-select without a FROM clause, with the WHERE clause on the outer
    select.  PostgreSQL refuses a star-select that names no table, and
    [session.scalars] raises SQLAlchemy's [ProgrammingError], for every
    address. *)
Definition select_exists_where_email (email : string) : M (ScalarResult bool) :=
  raise sqlalchemy_ProgrammingError.

(** [select(Profile).where(Profile.user_id == user_id)] *)
Definition select_profile_where_user_id (user_id : string) : M (ScalarResult Profile.t) :=
  fun w =>
    (Return (mk_ScalarResult
               (filter (fun p => Profile.user_id p = Some user_id)
                       (all_profiles (database (session w))))),
     w).

(** [select(SellerApplication).where(SellerApplication.id == application_id)] *)
Definition select_application_where_id (application_id : string)
    : M (ScalarResult SellerApplication.t) :=
  fun w =>
    (Return (mk_ScalarResult
               (SellerApplication.load <$>
                option_list (seller_applications (database (session w)) !! application_id))),
     w).

(** The object of the identity map: the latest modified copy, if any. *)
Fixpoint modified_user (user_id : string) (cs : list change) : option User.t :=
  match cs with
  | [] => None
  | c :: cs' =>
      match modified_user user_id cs' with
      | Some u => Some u
      | None =>
          match c with
          | dirty_user u => if bool_decide (User.id u = user_id) then Some u else None
          | _ => None
          end
      end
  end.

(** [session.get(User, user_id)] *)
Definition session_get_user (user_id : string) : M (option User.t) :=
  fun w =>
    (Return (match modified_user user_id (pending (session w)) with
             | Some u => Some u
             | None => users (database (session w)) !! user_id
             end),
     w).

(** Registering a change with the unit of work: [session.add(obj)], or an
    attribute assignment on a persistent object. *)
Definition session_mark (c : change) : M unit :=
  fun w =>
    (Return tt,
     set_session (mk_AsyncSession (database (session w)) (pending (session w) ++ [c])) w).

Definition email_taken (db : Database) (email : string) (but : string) : bool :=
  existsb (fun u => bool_decide (User.email u = email) && negb (bool_decide (User.id u = but)))
          (all_users db).

Definition slug_taken (db : Database) (slug : option string) : bool :=
  existsb (fun p => bool_decide (Profile.slug p = slug)) (all_profiles db).

(** The value written to the [status] column. *)
Definition bind_status (v : status_value) : option SellerApplicationStatus :=
  match v with
  | models_status s => Some s
  | schema_status s => bind_schema_status s
  end.

(** One statement of a flush.  The unique constraints are those of the tables:
    [users.id], [users.email], [profiles.slug], [profiles.user_id]; a violation
    is reported as SQLAlchemy's [IntegrityError]. *)
Definition flush_change (db : Database) (c : change) : result Database :=
  match c with
  | add_user u p =>
      if bool_decide (is_Some (users db !! User.id u))
         || email_taken db (User.email u) (User.id u)
         || slug_taken db (Profile.slug p)
         || bool_decide (is_Some (profiles db !! User.id u))
      then Raise sqlalchemy_IntegrityError
      else Return (mk_Database
                     (<[User.id u := u]> (users db))
                     (<[User.id u := Profile.set_user_id (Some (User.id u)) p]> (profiles db))
                     (seller_applications db))
  | dirty_user u =>
      if email_taken db (User.email u) (User.id u)
      then Raise sqlalchemy_IntegrityError
      else Return (mk_Database (<[User.id u := u]> (users db)) (profiles db)
                               (seller_applications db))
  | dirty_profile p =>
      match Profile.user_id p with
      | Some k => Return (mk_Database (users db) (<[k := p]> (profiles db))
                                      (seller_applications db))
      | None => Raise sqlalchemy_IntegrityError
      end
  | dirty_application a =>
      match bind_status (SellerApplication.status a) with
      | Some s =>
          Return (mk_Database (users db) (profiles db)
                    (<[SellerApplication.id a :=
                         SellerApplication.mk_row
                           (SellerApplication.id a) (SellerApplication.user_id a)
                           (SellerApplication.details a) s
                           (SellerApplication.reviewed_by a)
                           (SellerApplication.admin_notes a)
                           (SellerApplication.reviewed_at a)]>
                       (seller_applications db)))
      | None => Raise sqlalchemy_DBAPIError
      end
  end.

Fixpoint flush (db : Database) (cs : list change) : result Database :=
  match cs with
  | [] => Return db
  | c :: cs' =>
      match flush_change db c with
      | Return db' => flush db' cs'
      | Raise e => Raise e
      end
  end.

(** [session.commit()]: the pending changes reach the database together or not
    at all. *)
Definition session_commit : M unit :=
  fun w =>
    match flush (database (session w)) (pending (session w)) with
    | Return db' => (Return tt, set_session (mk_AsyncSession db' []) w)
    | Raise e => (Raise e, w)
    end.

(** [session.rollback()] *)
Definition session_rollback : M unit :=
  fun w => (Return tt, set_session (mk_AsyncSession (database (session w)) []) w).

(** [session.refresh(user)]: the attributes are read back from the row. *)
Definition session_refresh_user (u : User.t) : M User.t :=
  fun w =>
    match users (database (session w)) !! User.id u with
    | Some u' => (Return u', w)
    | None => (Raise (Exception "InvalidRequestError"), w)
    end.


(** [session.refresh(profile)], for the profile of the user [user_id]. *)
Definition session_refresh_profile (user_id : string) : M Profile.t :=
  fun w =>
    match profiles (database (session w)) !! user_id with
    | Some p => (Return p, w)
    | None => (Raise (Exception "InvalidRequestError"), w)
    end.

(** ** services/user.py *)

Definition MAX_ATTEMPTS : nat := 5.

(** The keyword parameters of python-slugify's [slugify]. *)
Definition slugify_parameters : list string :=
  [ "text"; "entities"; "decimal"; "hexadecimal"; "max_length"; "word_boundary";
    "separator"; "save_order"; "stopwords"; "regex_pattern"; "lowercase";
    "replacements"; "allow_unicode" ]%string.

(** A call of [slugify] on [text] that passes the listed keywords, the
    separator being "-": a keyword that is no parameter of the function fails
    to bind and raises [TypeError]. *)
Definition slugify_call (text : string) (keywords : list string) : M string :=
  match List.find (fun k => negb (bool_decide (k ∈ slugify_parameters))) keywords with
  | Some k =>
      raise (TypeError ("slugify() got an unexpected keyword argument '" +:+ k +:+ "'"))
  | None => ret (slugify text)
  end.

(** The [for _ in range(MAX_ATTEMPTS)] loop of [register_user] with [n]
    iterations left; [token_hex k] is the value of the [k]-th call of
    [secrets.token_hex(4)].  The call of [slugify] passes the keywords
    [separator] and [strict].  The [except] clause names psycopg2's
    [IntegrityError]. *)
Fixpoint register_attempts (n k : nat) (email full_name : string)
    (user : User.t) (profile : Profile.t) (token_hex : nat -> string) : M User.t :=
  match n with
  | O =>
      raise (BaseCustomException 500 "Registration failed"
               "Could not generate a unique username. Please try again.")
  | S n' =>
      let* username := slugify_call full_name ["separator"; "strict"]%string in
      let suffix := token_hex k in
      let profile := Profile.set_slug (username +:+ "-" +:+ suffix) profile in
      let* _ := session_mark (add_user user profile) in
      try_except
        (let* _ := session_commit in
         let* user := session_refresh_user user in
         let* _ := session_refresh_profile (User.id user) in
         ret user)
        (fun exc =>
           match exc with
           | psycopg2_IntegrityError =>
               Some (let* _ := session_rollback in
                     register_attempts n' (S k) email full_name user profile token_hex)
           | _ => None
           end)
  end.

(** [new_id] is the value that the column default [str(uuid.uuid4())] gives
    the row at flush; until then [user.id] reads [None], which is what
    [Profile(user_id=user.id, ...)] receives. *)
Definition register_user (email password full_name : string)
    (new_id : string) (token_hex : nat -> string) : M User.t :=
  let* existing_user := select_exists_where_email email in
  if ScalarResult_bool existing_user
  then raise (BaseCustomException 409 "Invalid e-mail"
                "There is already an account with this e-mail address")
  else
    let user := User.mk new_id email (hash_password password) BUYER true in
    let profile := Profile.mk None None (Some full_name) None None None None None None in
    register_attempts MAX_ATTEMPTS 0 email full_name user profile token_hex.

Definition get_user_by_id (user_id : string) : M User.t :=
  let* user := session_get_user user_id in
  match user with
  | None =>
      raise (BaseCustomException 404 "User not found"
               "The user with the given ID was not found.")
  | Some user => ret user
  end.

(** An attribute assignment on a persistent [User]. *)
Definition assign_user (u : User.t) : M User.t :=
  let* _ := session_mark (dirty_user u) in ret u.

Definition update_user (user_id : string) (email : option string)
    (role : option UserRole) (is_active : option bool) : M User.t :=
  let* user := get_user_by_id user_id in
  let* user :=
    match email with
    | Some email =>
        if str_bool email && negb (bool_decide (email = User.email user))
        then
          let* result := select_user_where_email email in
          match first result with
          | Some _ =>
              raise (BaseCustomException 409 "Email already in use"
                       "The email is already in use.")
          | None => assign_user (User.set_email email user)
          end
        else ret user
    | None => ret user
    end in
  let* user :=
    match role with
    | Some role => assign_user (User.set_role role user)
    | None => ret user
    end in
  let* user :=
    match is_active with
    | Some is_active => assign_user (User.set_is_active is_active user)
    | None => ret user
    end in
  let* _ := session_commit in
  let* user := session_refresh_user user in
  ret user.

Definition get_user_by_email (email : string) : M (option User.t) :=
  let* result := select_user_where_email email in
  ret (first result).

Definition soft_delete_user (user_id : string) : M unit :=
  let* user := get_user_by_id user_id in
  let* _ := assign_user (User.set_is_active false user) in
  let* _ := session_commit in
  ret tt.

(** ** services/auth.py *)

Definition response_set_cookie (key value : string) (httponly : bool) : M unit :=
  fun w => (Return tt, set_response (response w ++ [set_cookie key value httponly]) w).

Definition response_delete_cookie (key : string) : M unit :=
  fun w => (Return tt, set_response (response w ++ [delete_cookie key]) w).

Definition refresh_token_key (user_id : string) : string :=
  "refresh_token:" +:+ user_id.

Definition authenticate (email password : string) : M User.t :=
  let* user := get_user_by_email email in
  match user with
  | None =>
      raise (BaseCustomException 401 "Invalid email or password"
               "The email or password is incorrect.")
  | Some user =>
      if negb (User.is_active user)
      then raise (BaseCustomException 401 "Inactive account"
                    "The account is inactive. Please contact support.")
      else if negb (verify_password password (User.password_hash user))
      then raise (BaseCustomException 401 "Invalid email or password"
                    "The email or password is incorrect.")
      else ret user
  end.

(** [AuthService.refresh_token]: both expiry settings are handed over as the
    integers they are. *)
Definition refresh_token (now : Z) (user_id : string) : M string :=
  let* access_token :=
    create_access_token now user_id
      (Some (int_value (ACCESS_TOKEN_EXPIRE_MINUTES settings))) in
  let* refresh_token :=
    create_refresh_token now user_id
      (Some (int_value (REFRESH_TOKEN_EXPIRE_DAYS settings))) in
  let* _ := cache_set (refresh_token_key user_id) (json_str refresh_token)
              (REFRESH_TOKEN_EXPIRE_DAYS settings * 24 * 60 * 60) in
  let* _ := response_set_cookie "refresh_token" refresh_token true in
  ret access_token.

Definition token_revoked : exn :=
  BaseCustomException 401 "Token revoked or expired"
    "The refresh token has been revoked or expired.".

Definition validate_refresh_token (token : string) : M string :=
  try_except
    (match jwt_decode token with
     | None => raise JWTError
     | Some payload =>
         if negb (bool_decide (type payload = Some "refresh"%string))
         then raise (BaseCustomException 401 "Invalid token type"
                       "The refresh token is invalid.")
         else
           match sub payload with
           | None =>
               raise (BaseCustomException 401 "Invalid token claims"
                        "The refresh token claims are invalid.")
           | Some user_id =>
               if negb (str_bool user_id)
               then raise (BaseCustomException 401 "Invalid token claims"
                             "The refresh token claims are invalid.")
               else
                 let* stored_token := cache_get (refresh_token_key user_id) in
                 if negb (bool_decide (stored_token = Some (json_str token)))
                 then raise token_revoked
                 else
                   let* _ := get_user_by_id user_id in
                   ret user_id
           end
     end)
    (fun e =>
       match e with
       | JWTError =>
           Some (raise (BaseCustomException 401 "Token expired"
                          "The refresh token has expired."))
       | _ => None
       end).

Definition token_not_found : exn :=
  BaseCustomException 401 "Token not found"
    "Refresh token for the given user id was not found".

(** [deleted == 0] compares the [bool] answered by [cache_delete] with an
    [int]: [True == 0] is false and [False == 0] is true. *)
Definition logout (user_id : string) : M unit :=
  let* _ := response_delete_cookie "refresh_token" in
  let* deleted := cache_delete (refresh_token_key user_id) in
  if Z.b2z deleted =? 0
  then raise token_not_found
  else ret tt.

(** ** core/dependencies.py *)

Definition credentials_exception : exn :=
  TokenAuthException "The provided authentication token is invalid or expired.".

Definition get_current_user (token : string) : M User.t :=
  try_except
    (match jwt_decode token with
     | None => raise JWTError
     | Some payload =>
         match sub payload with
         | None => raise credentials_exception
         | Some user_id =>
             let* user := get_user_by_id user_id in
             if negb (User.is_active user)
             then raise credentials_exception
             else ret user
         end
     end)
    (fun e =>
       match e with
       | JWTError => Some (raise credentials_exception)
       | _ =>
           if isinstance_BaseCustomException e
           then Some (raise credentials_exception)
           else None
       end).


(** ** services/storage.py *)

(** [str.isspace] on a character below 256. *)
Definition is_space (c : ascii) : bool :=
  let n := nat_of_ascii c in
  ((9 <=? n) && (n <=? 13) || (28 <=? n) && (n <=? 32)
   || (n =? 133) || (n =? 160))%nat.

(** [not s.strip()]: the string is empty or all white space. *)
Fixpoint blank (s : string) : bool :=
  match s with
  | EmptyString => true
  | String c s' => is_space c && blank s'
  end.

(** The MinIO client calls of the storage service, on its own bucket.  Each
    checks the object name before it sends anything and raises [ValueError]
    for an empty or blank one. *)
Definition client_put_object (object_name : string) (data : list Byte.byte)
    (content_type : string) : M unit :=
  fun w =>
    if blank object_name then (Raise (ValueError EmptyString), w)
    else if reachable (minio w)
    then (Return tt,
          set_minio (mk_Minio (<[object_name := (data, content_type)]> (objects (minio w)))
                              true) w)
    else (Raise (Exception "MaxRetryError"), w).

Definition client_stat_object (object_name : string) : M unit :=
  fun w =>
    if blank object_name then (Raise (ValueError EmptyString), w)
    else if reachable (minio w)
    then match objects (minio w) !! object_name with
         | Some _ => (Return tt, w)
         | None => (Raise S3Error, w)
         end
    else (Raise (Exception "MaxRetryError"), w).

Definition client_remove_object (object_name : string) : M unit :=
  fun w =>
    if blank object_name then (Raise (ValueError EmptyString), w)
    else if reachable (minio w)
    then (Return tt,
          set_minio (mk_Minio (base.delete object_name (objects (minio w))) true) w)
    else (Raise (Exception "MaxRetryError"), w).

(** [Minio.presigned_get_object(bucket, name, expires=...)]: the client checks
    the object name, then reads [expires.total_seconds()], which must lie
    between one second and seven days. *)
Definition client_presigned_get_object (object_name : string) (expires : delta)
    : M string :=
  if blank object_name then raise (ValueError EmptyString)
  else
    match expires with
    | timedelta seconds =>
        if (1 <=? seconds) && (seconds <=? 604800)
        then ret (presigned_get_object object_name seconds)
        else raise (ValueError "expires must be between 1 second to 7 days")
    | int_value _ =>
        raise (AttributeError "'int' object has no attribute 'total_seconds'")
    end.

(** [get_presigned_url(object_name)] with the default [expires=3600], an
    integer, as its callers use it. *)
Definition get_presigned_url (object_name : string) : M string :=
  let* raw_url := client_presigned_get_object object_name (int_value 3600) in
  ret (replace (MINIO_ENDPOINT settings) (VARNISH_URL settings) raw_url).

(** Truth value of a scan verdict: [None] and the empty dictionary are false. *)
Definition verdict_bool (v : scan_verdict) : bool :=
  match v with
  | None => false
  | Some d => negb (bool_decide (d = ∅))
  end.

(** [scan_result.get('stream', (None, None))[1] or 'unknown threat'] *)
Definition threat_label (v : scan_verdict) : string :=
  match v with
  | Some d =>
      match d !! "stream"%string with
      | Some (_, reason) => if str_bool reason then reason else "unknown threat"%string
      | None => "unknown threat"%string
      end
  | None => "unknown threat"%string
  end.

Definition clamd_scan_stream (contents : list Byte.byte) : M scan_verdict :=
  fun w => (scan_stream contents, w).

Definition Image_open_verify (contents : list Byte.byte) : M unit :=
  if image_verify contents then ret tt else raise (Exception "UnidentifiedImageError").

(** [uuid_hex] is the value of [uuid.uuid4().hex] drawn by the call. *)
Definition upload_image (contents : list Byte.byte) (uuid_hex : string)
    : M (string * string) :=
  let size := Z.of_nat (length contents) in
  if size =? 0
  then raise (FileUploadException "Empty file")
  else
    let max_size_bytes := MAX_UPLOAD_SIZE settings in
    if int_bool max_size_bytes && (size >? max_size_bytes)
    then raise (BaseCustomException 413 "File too large"
                  ("File size " +:+ pretty size +:+ " exceeds limit of "
                   +:+ pretty max_size_bytes +:+ " bytes"))
    else
      let allowed_types := ALLOWED_IMAGE_MIMES settings in
      let detected := magic_from_buffer contents in
      if negb (bool_decide (allowed_types = [])) && negb (bool_decide (detected ∈ allowed_types))
      then raise (BaseCustomException 415 "Unsupported file type"
                    ("File type " +:+ detected +:+ " is not allowed"))
      else
        let* _ :=
          try_except
            (Image_open_verify contents)
            (fun _ => Some (raise (FileUploadException "Invalid or corrupted image"))) in
        let* _ :=
          try_except
            (let* scan_result := clamd_scan_stream contents in
             if verdict_bool scan_result
             then raise (BaseCustomException 400 "Malware detected"
                           ("Malware detected: " +:+ threat_label scan_result))
             else ret tt)
            (fun e =>
               match e with
               | clamd_ConnectionError _ =>
                   Some (raise (BaseCustomException 503 "Antivirus service unavailable"
                                  ("Error connecting to ClamAV: " +:+ str_of_exn e)))
               | _ =>
                   Some (raise (BaseCustomException 500 "Unexpected scan error"
                                  ("Error during antivirus scan: " +:+ str_of_exn e)))
               end) in
        let ext := replace "jpeg" "jpg" (last_segment "" detected) in
        let object_name := uuid_hex +:+ "." +:+ ext in
        let* _ :=
          try_except
            (client_put_object object_name contents detected)
            (fun e => Some (raise (FileUploadException ("Upload failed: " +:+ str_of_exn e)))) in
        ret (detected, object_name).

Definition delete_file (file_name : string) : M unit :=
  try_except
    (let* _ := client_stat_object file_name in
     client_remove_object file_name)
    (fun e =>
       match e with
       | S3Error =>
           Some (raise (BaseCustomException 404 "File not found"
                          ("File " +:+ file_name +:+ " does not exist")))
       | _ => None
       end).

(** ** services/profile.py *)

Inductive argument :=
  | arg_file (contents : list Byte.byte)
  | arg_str (s : string).

(** A call [storage_service.upload_image(...)] with the given positional
    arguments.  The method is declared [upload_image(self, file)]: any other
    number of arguments fails to bind and raises [TypeError] before the body
    runs; a [str] in the place of the file has no [read]. *)
Definition call_upload_image (args : list argument) (uuid_hex : string)
    : M (string * string) :=
  match args with
  | [arg_file contents] => upload_image contents uuid_hex
  | [arg_str _] => raise (AttributeError "'str' object has no attribute 'read'")
  | [] =>
      raise (TypeError
               "StorageService.upload_image() missing 1 required positional argument: 'file'")
  | _ :: _ :: _ =>
      raise (TypeError
               ("StorageService.upload_image() takes 2 positional arguments but "
                +:+ pretty (S (length args)) +:+ " were given"))
  end.

(** The constructor of the pydantic model [ProfilePictureResponse]: fields are
    keyword arguments, a positional argument fails to bind. *)
Definition ProfilePictureResponse (positional : list string)
    (picture_url : option string) : M (option string) :=
  match positional with
  | [] => ret picture_url
  | _ :: _ =>
      raise (TypeError "BaseModel.__init__() takes 1 positional argument but 2 were given")
  end.

Definition upload_picture (picture : list Byte.byte) (user_id : string)
    (uuid_hex : string) : M (option string) :=
  let* result := select_profile_where_user_id user_id in
  match first result with
  | None =>
      raise (AttributeError "'NoneType' object has no attribute 'picture_filename'")
  | Some profile =>
      let* _ :=
        match Profile.picture_filename profile with
        | Some picture_filename =>
            if str_bool picture_filename
            then unawaited (delete_file picture_filename)
            else ret tt
        | None => ret tt
        end in
      let* uploaded :=
        call_upload_image [arg_file picture; arg_str (PROFILE_UPLOAD_BUCKET settings)]
                          uuid_hex in
      let picture_mime := fst uploaded in
      let picture_name := snd uploaded in
      let profile := Profile.set_picture picture_name picture_mime profile in
      let* _ := session_mark (dirty_profile profile) in
      let* _ := session_commit in
      let* url := get_presigned_url picture_name in
      ProfilePictureResponse [url] None
  end.

(** ** services/seller_application.py *)

Definition session_refresh_application (a : SellerApplication.t)
    : M SellerApplication.t :=
  fun w =>
    match seller_applications (database (session w)) !! SellerApplication.id a with
    | Some r => (Return (SellerApplication.load r), w)
    | None => (Raise (Exception "InvalidRequestError"), w)
    end.

Definition already_reviewed : exn :=
  BaseCustomException 400 "Already reviewed"
    "Seller application has already been reviewed".

Definition invalid_review_status : exn :=
  BaseCustomException 400 "Invalid review status"
    "Review status must be either 'approved' or 'rejected'".

(** The statements of [review_application] that follow its guards: the review
    is recorded on [req], the applicant is promoted on approval, the session
    is committed.  The user service works on the same session object as the
    application service. *)
Definition record_review (req : SellerApplication.t) (reviewer_id : string)
    (review : SellerApplicationReview.t) (now : Z) : M SellerApplication.t :=
  let review_status := schema_status (SellerApplicationReview.status review) in
  let req :=
    SellerApplication.mk
      (SellerApplication.id req) (SellerApplication.user_id req)
      (SellerApplication.details req)
      (if status_eq review_status (schema_status APPROVED)
       then schema_status APPROVED else schema_status REJECTED)
      (Some reviewer_id) (SellerApplicationReview.admin_notes review)
      (Some now) in
  let* _ := session_mark (dirty_application req) in
  let* _ :=
    if status_eq review_status (schema_status APPROVED)
    then let* _ := update_user (SellerApplication.user_id req) None (Some SELLER) None in
         ret tt
    else ret tt in
  let* _ := session_commit in
  let* req := session_refresh_application req in
  ret req.

(** [SellerApplicationStatus] in this module is the schema enumeration. *)
Definition review_application (application_id reviewer_id : string)
    (review : SellerApplicationReview.t) (now : Z) : M SellerApplication.t :=
  let review_status := schema_status (SellerApplicationReview.status review) in
  if status_is review_status (schema_status PENDING)
  then raise invalid_review_status
  else
    let* result := select_application_where_id application_id in
    match first result with
    | None => raise (BaseCustomException 404 "Not found" "Seller application not found")
    | Some req =>
        if negb (status_eq (SellerApplication.status req) (schema_status PENDING))
        then raise already_reviewed
        else record_review req reviewer_id review now
    end.

End Services.

(** ** Further values of the request layer *)

Module ProfileUpdate.
(** The body of a profile update (schema/profile.py); a field is [None] when
    it was left out of the request or sent as null. *)
Record t := mk
  { full_name : option string; phone : option string; city : option string;
    state : option string; country : option string }.
End ProfileUpdate.

Module TokenResponse.
(** schema/auth.py *)
Record t := mk { access_token : string; token_type : string }.
End TokenResponse.

(** A keyword argument of a call. *)
Inductive pyvalue := py_int (n : Z) | py_str (s : string).

(** A call of [BaseCustomException] with keyword arguments only.  The constructor is declared
    [__init__(self, status_code, error, description, headers=None)]: a keyword
    that is none of these fails to bind, and the expression raises [TypeError]
    instead of building the exception. *)
Definition BaseCustomException_call (kwargs : list (string * pyvalue)) : exn :=
  match List.find
          (fun kv => negb (bool_decide
             (fst kv ∈ ["status_code"; "error"; "description"; "headers"]%string)))
          kwargs with
  | Some kv =>
      TypeError ("BaseCustomException.__init__() got an unexpected keyword argument '"
                 +:+ fst kv +:+ "'")
  | None =>
      match (list_to_map kwargs : gmap string pyvalue) !! "status_code"%string,
            (list_to_map kwargs : gmap string pyvalue) !! "error"%string,
            (list_to_map kwargs : gmap string pyvalue) !! "description"%string with
      | Some (py_int c), Some (py_str e), Some (py_str d) => BaseCustomException c e d
      | _, _, _ =>
          TypeError "BaseCustomException.__init__() missing required positional arguments"
      end
  end.

(** [UserRole.value] *)
Definition UserRole_value (r : UserRole) : string :=
  match r with
  | ADMIN => "admin"
  | SELLER => "seller"
  | BUYER => "buyer"
  end.

(** [str] of a list of strings without quotes to escape: ['admin', 'buyer']. *)
Fixpoint repr_items (l : list string) : string :=
  match l with
  | [] => ""
  | [s] => "'" +:+ s +:+ "'"
  | s :: l' => "'" +:+ s +:+ "', " +:+ repr_items l'
  end.

Definition repr_list (l : list string) : string := "[" +:+ repr_items l +:+ "]".

(** [setattr(profile, key, value)] for the fields of a profile update. *)
Definition Profile_setattr (p : Profile.t) (kv : string * string) : Profile.t :=
  let (key, value) := kv in
  if bool_decide (key = "full_name"%string) then
    Profile.mk (Profile.user_id p) (Profile.slug p) (Some value) (Profile.phone p)
      (Profile.city p) (Profile.state p) (Profile.country p)
      (Profile.picture_filename p) (Profile.picture_mime p)
  else if bool_decide (key = "phone"%string) then
    Profile.mk (Profile.user_id p) (Profile.slug p) (Profile.full_name p) (Some value)
      (Profile.city p) (Profile.state p) (Profile.country p)
      (Profile.picture_filename p) (Profile.picture_mime p)
  else if bool_decide (key = "city"%string) then
    Profile.mk (Profile.user_id p) (Profile.slug p) (Profile.full_name p) (Profile.phone p)
      (Some value) (Profile.state p) (Profile.country p)
      (Profile.picture_filename p) (Profile.picture_mime p)
  else if bool_decide (key = "state"%string) then
    Profile.mk (Profile.user_id p) (Profile.slug p) (Profile.full_name p) (Profile.phone p)
      (Profile.city p) (Some value) (Profile.country p)
      (Profile.picture_filename p) (Profile.picture_mime p)
  else if bool_decide (key = "country"%string) then
    Profile.mk (Profile.user_id p) (Profile.slug p) (Profile.full_name p) (Profile.phone p)
      (Profile.city p) (Profile.state p) (Some value)
      (Profile.picture_filename p) (Profile.picture_mime p)
  else p.

(** [profile_update.model_dump(exclude_unset=True, exclude_none=True)]: the
    fields that carry a value, in declaration order. *)
Definition model_dump (u : ProfileUpdate.t) : list (string * string) :=
  omap (fun kv => match snd kv with Some v => Some (fst kv, v) | None => None end)
    [ ("full_name"%string, ProfileUpdate.full_name u);
      ("phone"%string, ProfileUpdate.phone u);
      ("city"%string, ProfileUpdate.city u);
      ("state"%string, ProfileUpdate.state u);
      ("country"%string, ProfileUpdate.country u) ].

(** The constructor of the pydantic model [ProfileUpdateResponse]: as for every
    pydantic model, a positional argument fails to bind. *)
Definition ProfileUpdateResponse (positional : list Profile.t) : M Profile.t :=
  match positional with
  | [] => raise (Exception "ValidationError")
  | _ :: _ =>
      raise (TypeError "BaseModel.__init__() takes 1 positional argument but 2 were given")
  end.

Section Callers.
Context `{!Platform}.

(** ** core/dependencies.py: identity and roles *)

Definition get_current_user_id (token : string) : M string :=
  let* current_user := get_current_user token in
  ret (User.id current_user).

(** [require_role] applied to the allowed roles yields [role_checker], which
    depends on [get_current_user]. *)
Definition require_role (allowed_roles : list UserRole) (token : string) : M User.t :=
  let* current_user := get_current_user token in
  let user_role := User.role current_user in
  if negb (bool_decide (user_role ∈ allowed_roles))
  then raise (BaseCustomException 403 "Forbidden"
                ("This action requires one of these roles: "
                 +:+ repr_list (UserRole_value <$> allowed_roles)))
  else ret current_user.

(** ** services/profile.py: [update_profile] *)

Definition update_profile (profile_update : ProfileUpdate.t) (user_id : string)
    : M Profile.t :=
  let* result := select_profile_where_user_id user_id in
  match first result with
  | None =>
      raise (BaseCustomException_call
               [ ("status_code"%string, py_int 404);
                 ("detail"%string, py_str "Profile not found");
                 ("message"%string, py_str ("Profile not found for user_id: " +:+ user_id)) ])
  | Some profile =>
      let update_dict := model_dump profile_update in
      if bool_decide (update_dict = [])
      then raise (BaseCustomException_call
                    [ ("status_code"%string, py_int 400);
                      ("detail"%string, py_str "No valid fields to update");
                      ("message"%string,
                       py_str "At least one field must be provided for update") ])
      else
        let profile := foldl Profile_setattr profile update_dict in
        let* _ := session_mark (dirty_profile profile) in
        let* _ := session_commit in
        let* profile := session_refresh_profile user_id in
        ProfileUpdateResponse [profile]
  end.

(** ** routes/auth.py: the login handler *)

Definition login (email password : string) (now : Z) : M TokenResponse.t :=
  let* user := authenticate email password in
  let* access_token := refresh_token now (User.id user) in
  ret (TokenResponse.mk access_token "bearer").

End Callers.

(** * Reading the world: definitions used in the statements *)

Section Readings.
Context `{!Platform}.

(** What [cache_get] reads: nothing on a lost connection, on a missing or empty
    entry, or on text that [json.loads] refuses. *)
Definition cache_read (w : World) (key : string) : option json :=
  if connected (redis w)
  then match snd <$> entries (redis w) !! key with
       | Some v => if str_bool v then json_loads v else None
       | None => None
       end
  else None.

(** Every row of [users] is stored under its own id. *)
Definition keyed_by_id (db : Database) : Prop :=
  forall k u, users db !! k = Some u -> User.id u = k.

(** The gates of the upload pipeline, in the words of the specification:
    empty payload, size over the configured maximum, sniffed MIME outside the
    allow-list, structurally invalid image, scan not clean (a threat verdict,
    the scanner unreachable, or any other scan error). *)
Inductive gate :=
  | empty_payload | over_maximum | mime_not_allowed | invalid_image | scan_not_clean.

Definition rejects (contents : list Byte.byte) (g : gate) : bool :=
  match g with
  | empty_payload => Z.of_nat (length contents) =? 0
  | over_maximum =>
      int_bool (MAX_UPLOAD_SIZE settings)
      && (Z.of_nat (length contents) >? MAX_UPLOAD_SIZE settings)
  | mime_not_allowed =>
      negb (bool_decide (ALLOWED_IMAGE_MIMES settings = []))
      && negb (bool_decide (magic_from_buffer contents ∈ ALLOWED_IMAGE_MIMES settings))
  | invalid_image => negb (image_verify contents)
  | scan_not_clean =>
      match scan_stream contents with
      | Return verdict => verdict_bool verdict
      | Raise _ => true
      end
  end.

Definition gates : list gate :=
  [empty_payload; over_maximum; mime_not_allowed; invalid_image; scan_not_clean].

(** The first gate, in pipeline order, that rejects the payload. *)
Definition first_rejecting_gate (contents : list Byte.byte) : option gate :=
  List.find (rejects contents) gates.

(** The error with which a gate rejects. *)
Definition rejected_with (g : gate) (e : exn) : Prop :=
  match g with
  | empty_payload => e = FileUploadException "Empty file"
  | over_maximum => status_code e = Some 413 /\ error e = Some "File too large"%string
  | mime_not_allowed =>
      status_code e = Some 415 /\ error e = Some "Unsupported file type"%string
  | invalid_image => e = FileUploadException "Invalid or corrupted image"
  | scan_not_clean =>
      (status_code e = Some 503 /\ error e = Some "Antivirus service unavailable"%string)
      \/ (status_code e = Some 500 /\ error e = Some "Unexpected scan error"%string)
  end.

(** What the [except] clauses around the scan turn an exception into. *)
Definition scan_handler (e : exn) : exn :=
  match e with
  | clamd_ConnectionError _ =>
      BaseCustomException 503 "Antivirus service unavailable"
        ("Error connecting to ClamAV: " +:+ str_of_exn e)
  | _ =>
      BaseCustomException 500 "Unexpected scan error"
        ("Error during antivirus scan: " +:+ str_of_exn e)
  end.

(** The error raised inside the [try] block on a threat verdict. *)
Definition malware_detected (verdict : scan_verdict) : exn :=
  BaseCustomException 400 "Malware detected"
    ("Malware detected: " +:+ threat_label verdict).

(** The object name under which an accepted payload is stored. *)
Definition stored_name (contents : list Byte.byte) (uuid_hex : string) : string :=
  uuid_hex +:+ "." +:+ replace "jpeg" "jpg" (last_segment "" (magic_from_buffer contents)).

End Readings.

(** * A concrete platform, used to run the services on examples *)

Module Demo.

Definition quote : ascii := "034"%char.

(** JSON text of a string without characters to escape. *)
Definition dumps (v : json) : string :=
  match v with
  | json_str s => String quote (s +:+ String quote EmptyString)
  | json_other => "null"%string
  end.

(** [s] without its closing quote. *)
Fixpoint chop (s : string) : option string :=
  match s with
  | EmptyString => None
  | String c s' =>
      match s' with
      | EmptyString => if Ascii.eqb c quote then Some EmptyString else None
      | String _ _ => String c <$> chop s'
      end
  end.

Definition loads (s : string) : option json :=
  match s with
  | EmptyString => None
  | String c s' => if Ascii.eqb c quote then json_str <$> chop s' else Some json_other
  end.

(** Tokens are the claims written out; only the listed ones verify. *)
Definition encode (c : Claims) : string :=
  default ""%string (type c) +:+ "." +:+ default ""%string (sub c) +:+ "."
  +:+ pretty (default 0 (iat c)).

Definition issued (kind user_id : string) (now lifetime : Z) : Claims :=
  mk_Claims (Some user_id) (Some (now + lifetime)) (Some now) (Some kind).

Definition verifying : list Claims :=
  [ issued "refresh" "u1" 1000 604800; issued "refresh" "u1" 1500 604800;
    issued "access" "u1" 1000 1800; issued "refresh" "ghost" 1000 604800;
    issued "refresh" "" 1000 604800 ].

Definition decode (t : string) : option Claims :=
  List.find (fun c => String.eqb (encode c) t) verifying.

Definition slug_char (c : ascii) : ascii :=
  let n := nat_of_ascii c in
  if ((65 <=? n) && (n <=? 90))%nat then ascii_of_nat (n + 32)
  else if Ascii.eqb c " " then "-"%char else c.

Fixpoint slug (s : string) : string :=
  match s with
  | EmptyString => EmptyString
  | String c s' => String (slug_char c) (slug s')
  end.

(** PNG and JPEG signatures. *)
Definition sniff (contents : list Byte.byte) : string :=
  match contents with
  | Byte.x89 :: Byte.x50 :: _ => "image/png"%string
  | Byte.xff :: Byte.xd8 :: _ => "image/jpeg"%string
  | _ => "application/octet-stream"%string
  end.

Definition verify (contents : list Byte.byte) : bool :=
  (3 <=? length contents)%nat.

(** The third byte decides the verdict: [X] is the test signature, a zero
    byte makes the daemon unreachable, [!] makes the command fail. *)
Definition scan (contents : list Byte.byte) : result scan_verdict :=
  match contents !! 2%nat with
  | Some Byte.x58 =>
      Return (Some {[ "stream"%string := ("FOUND"%string, "Eicar-Test-Signature"%string) ]})
  | Some Byte.x00 => Raise (clamd_ConnectionError "timed out")
  | Some Byte.x21 => Raise (Exception "size limit exceeded")
  | _ => Return None
  end.

Definition str_exn (e : exn) : string :=
  match e with
  | BaseCustomException _ l _ => l
  | TokenAuthException d | FileUploadException d => d
  | clamd_ConnectionError d | TypeError d | AttributeError d | Exception d => d
  | _ => "error"%string
  end.

Definition the_settings : Settings :=
  mk_Settings 30 7 (5 * 1024 * 1024) ["image/jpeg"; "image/png"]%string "profile"
              "minio:9000" "cdn.example.com".

Definition platform : Platform :=
  mk_Platform the_settings dumps loads encode decode
    (fun p => "bcrypt:" +:+ p)
    (fun p h => bool_decide (h = "bcrypt:" +:+ p))
    slug sniff verify scan
    (fun name _ => "http://minio:9000/profile/" +:+ name)
    str_exn
    (fun _ => None)
    9223370000000000.

Definition no_redis : Redis := mk_Redis ∅ true.
(** A cache whose only entry is the refresh token of [user_id]. *)
Definition holding (user_id token : string) : Redis :=
  mk_Redis {[ "refresh_token:" +:+ user_id := (604800, dumps (json_str token)) ]} true.

Definition no_minio : Minio := mk_Minio ∅ true.

Definition jane : User.t := User.mk "u1" "a@x.com" "bcrypt:longenough1" BUYER true.

Definition jane_profile : Profile.t :=
  Profile.mk (Some "u1"%string) (Some "jane-doe-0a1b2c3d"%string) (Some "Jane Doe"%string)
             None None None None (Some "old.png"%string) (Some "image/png"%string).

Definition with_jane : Database :=
  mk_Database {[ "u1"%string := jane ]} {[ "u1"%string := jane_profile ]} ∅.

(** Jane's profile picture, in the bucket. *)
Definition old_picture : Minio :=
  mk_Minio {[ "old.png"%string := ([Byte.x89; Byte.x50; Byte.x4e; Byte.x47], "image/png"%string) ]}
           true.

Definition application (s : SellerApplicationStatus) : SellerApplication.row :=
  SellerApplication.mk_row "app1" "u1" "I sell cars" s
    match s with PENDING => None | _ => Some "admin"%string end
    match s with PENDING => None | _ => Some "fine"%string end
    match s with PENDING => None | _ => Some 900 end.

(** Jane and her seller application in status [s]. *)
Definition with_application (s : SellerApplicationStatus) : Database :=
  mk_Database {[ "u1"%string := jane ]} {[ "u1"%string := jane_profile ]}
              {[ "app1"%string := application s ]}.

Definition world (r : Redis) (db : Database) (m : Minio) : World :=
  mk_World r (mk_AsyncSession db []) m [].

End Demo.
(** * Further definitions used in the statements *)

(** No two accounts share an e-mail address (the unique index of [users]). *)
Definition emails_unique (db : Database) : Prop :=
  forall k1 k2 u1 u2,
    users db !! k1 = Some u1 -> users db !! k2 = Some u2 ->
    User.email u1 = User.email u2 -> k1 = k2.

(** The one error of [authenticate] for an unknown address and a wrong password. *)
Definition invalid_credentials : exn :=
  BaseCustomException 401 "Invalid email or password"
    "The email or password is incorrect.".

Definition inactive_account : exn :=
  BaseCustomException 401 "Inactive account"
    "The account is inactive. Please contact support.".

Definition user_not_found : exn :=
  BaseCustomException 404 "User not found" "The user with the given ID was not found.".

(** The fields of a user after [update_user] was given the three optional
    arguments: an absent, empty or unchanged e-mail keeps the address. *)
Definition updated_user (u : User.t) (email : option string)
    (role : option UserRole) (is_active : option bool) : User.t :=
  User.mk (User.id u)
          (match email with
           | Some e => if str_bool e then e else User.email u
           | None => User.email u
           end)
          (User.password_hash u)
          (default (User.role u) role)
          (default (User.is_active u) is_active).

(** Does the string hold a slash? *)
Fixpoint has_slash (s : string) : bool :=
  match s with
  | EmptyString => false
  | String c s' => Ascii.eqb c "/" || has_slash s'
  end.

(** [name.split("/")]: the path segments of an object name. *)
Fixpoint split_slash (acc s : string) : list string :=
  match s with
  | EmptyString => [acc]
  | String c s' =>
      if Ascii.eqb c "/" then acc :: split_slash EmptyString s'
      else split_slash (acc +:+ String c EmptyString) s'
  end.

(** Does the object name hold a path segment "." or ".."?  Recent releases of
    the MinIO client refuse such a name as they refuse a blank one. *)
Definition dot_segment (name : string) : bool :=
  bool_decide ("."%string ∈ split_slash EmptyString name)
  || bool_decide (".."%string ∈ split_slash EmptyString name).

(** Is [update_user] given an e-mail address that it will assign: present, not
    empty, and not the one the account has. *)
Definition changes_email (u : User.t) (email : option string) : bool :=
  match email with
  | Some e => str_bool e && negb (bool_decide (e = User.email u))
  | None => false
  end.

(** The database with the row of [users] under [k] replaced. *)
Definition with_user (db : Database) (k : string) (u : User.t) : Database :=
  mk_Database (<[k := u]> (users db)) (profiles db) (seller_applications db).

(** The address [e] belongs to no account, or only to the one stored under [k]. *)
Definition free_for (db : Database) (k : string) (e : string) : Prop :=
  forall k' u', users db !! k' = Some u' -> User.email u' = e -> k' = k.

(** The attribute assignments that [update_user] makes on the account [u], in
    order, each given as the account after the assignment. *)
Definition assignments (u : User.t) (email : option string)
    (role : option UserRole) (is_active : option bool) : list User.t :=
  let u1 := if changes_email u email then User.set_email (default ""%string email) u else u in
  let u2 := match role with Some r => User.set_role r u1 | None => u1 end in
  let u3 := match is_active with Some a => User.set_is_active a u2 | None => u2 end in
  (if changes_email u email then [u1] else [])
  ++ match role with Some _ => [u2] | None => [] end
  ++ match is_active with Some _ => [u3] | None => [] end.

Definition email_in_use : exn :=
  BaseCustomException 409 "Email already in use" "The email is already in use.".

(** * Further example data *)

Module Fixtures.

Definition john : User.t := User.mk "u2" "j@x.com" "bcrypt:correct-horse" SELLER true.

(** Jane and John, each with an address of their own. *)
Definition two_accounts : Database :=
  mk_Database {[ "u1"%string := Demo.jane; "u2"%string := john ]}
              {[ "u1"%string := Demo.jane_profile ]} ∅.

End Fixtures.

(** The profile after an update: a field of the request that carries a value
    replaces the stored one, the others stay. *)
Definition updated_profile (p : Profile.t) (u : ProfileUpdate.t) : Profile.t :=
  Profile.mk (Profile.user_id p) (Profile.slug p)
    (match ProfileUpdate.full_name u with Some v => Some v | None => Profile.full_name p end)
    (match ProfileUpdate.phone u with Some v => Some v | None => Profile.phone p end)
    (match ProfileUpdate.city u with Some v => Some v | None => Profile.city p end)
    (match ProfileUpdate.state u with Some v => Some v | None => Profile.state p end)
    (match ProfileUpdate.country u with Some v => Some v | None => Profile.country p end)
    (Profile.picture_filename p) (Profile.picture_mime p).

(** The database with the row of [profiles] under [k] replaced. *)
Definition with_profile (db : Database) (k : string) (p : Profile.t) : Database :=
  mk_Database (users db) (<[k := p]> (profiles db)) (seller_applications db).

(** * Properties *)

(** ** Evaluation lemmas for the cache helpers and the session *)

Section CacheFacts.
Context `{!Platform}.

Lemma cache_get_eval (key : string) (w : World) :
  cache_get key w = (Return (cache_read w key), w).
Proof.
  unfold cache_get, cache_read, try_except, bind, client_get, ret, raise.
  destruct (connected (redis w)); [|reflexivity].
  destruct (entries (redis w) !! key) as [[ttl v]|]; simpl; [|reflexivity].
  destruct (str_bool v); [|reflexivity].
  destruct (json_loads v); reflexivity.
Qed.

Lemma setex_accepts_range (expire : Z) :
  setex_accepts expire = true <-> 0 < expire <= max_expire.
Proof. unfold setex_accepts. rewrite andb_true_iff, Z.ltb_lt, Z.leb_le. tauto. Qed.

Lemma cache_set_connected (key : string) (value : json) (expire : Z) (w : World) :
  connected (redis w) = true ->
  setex_accepts expire = true ->
  cache_set key value expire w =
    (Return true,
     set_redis (mk_Redis (<[key := (expire, json_dumps value)]> (entries (redis w))) true) w).
Proof.
  intros Hc He. unfold cache_set, try_except, bind, client_setex, ret.
  rewrite Hc, He. reflexivity.
Qed.

(** An expiry that SETEX refuses: the helper answers [False] and nothing is
    stored. *)
Lemma cache_set_refused (key : string) (value : json) (expire : Z) (w : World) :
  setex_accepts expire = false ->
  cache_set key value expire w = (Return false, w).
Proof.
  intros He. unfold cache_set, try_except, bind, client_setex, ret.
  rewrite He. destruct (connected (redis w)); reflexivity.
Qed.

Lemma cache_set_disconnected (key : string) (value : json) (expire : Z) (w : World) :
  connected (redis w) = false ->
  cache_set key value expire w = (Return false, w).
Proof.
  intros Hc. unfold cache_set, try_except, bind, client_setex, ret.
  rewrite Hc. reflexivity.
Qed.

Lemma cache_delete_connected (key : string) (w : World) :
  connected (redis w) = true ->
  cache_delete key w =
    (Return true,
     set_redis (mk_Redis (base.delete key (entries (redis w))) true) w).
Proof.
  intros Hc. unfold cache_delete, try_except, bind, client_delete, ret.
  rewrite Hc. reflexivity.
Qed.

Lemma cache_delete_disconnected (key : string) (w : World) :
  connected (redis w) = false ->
  cache_delete key w = (Return false, w).
Proof.
  intros Hc. unfold cache_delete, try_except, bind, client_delete, ret.
  rewrite Hc. reflexivity.
Qed.

Lemma get_user_by_id_world (user_id : string) (w : World) :
  snd (get_user_by_id user_id w) = w.
Proof.
  unfold get_user_by_id, bind, session_get_user, ret, raise.
  destruct (modified_user _ _); [reflexivity|].
  destruct (users _ !! _); reflexivity.
Qed.

Lemma get_user_by_id_cases (user_id : string) (w : World) :
  (exists u, get_user_by_id user_id w = (Return u, w)) \/
  get_user_by_id user_id w =
    (Raise (BaseCustomException 404 "User not found"
              "The user with the given ID was not found."), w).
Proof.
  unfold get_user_by_id, bind, session_get_user, ret, raise.
  destruct (modified_user _ _); [left; eauto|].
  destruct (users _ !! _); [left; eauto|right; reflexivity].
Qed.

(** The body of [validate_refresh_token] once the token has passed the
    signature, type and subject checks. *)
Lemma validate_refresh_token_eval (token user_id : string) (payload : Claims) (w : World) :
  jwt_decode token = Some payload ->
  type payload = Some "refresh"%string ->
  sub payload = Some user_id ->
  user_id <> ""%string ->
  validate_refresh_token token w =
    if bool_decide (cache_read w (refresh_token_key user_id) = Some (json_str token))
    then match get_user_by_id user_id w with
         | (Return _, _) => (Return user_id, w)
         | (Raise e, _) => (Raise e, w)
         end
    else (Raise token_revoked, w).
Proof.
  intros Hd Ht Hs Hne.
  unfold validate_refresh_token, try_except.
  rewrite Hd, Ht, Hs. simpl.
  unfold str_bool. rewrite bool_decide_eq_false_2 by exact Hne. simpl.
  unfold bind at 1. rewrite cache_get_eval.
  destruct (bool_decide (cache_read w _ = _)); simpl; [|reflexivity].
  unfold bind.
  destruct (get_user_by_id_cases user_id w) as [[u Hu]|Hu]; rewrite Hu; reflexivity.
Qed.

End CacheFacts.

(** ** Refresh-token validation *)

Section RefreshTokens.
Context `{!Platform}.

Lemma cache_read_after_set (key : string) (tok : string) (expire : Z) (w : World) :
  connected (redis w) = true ->
  setex_accepts expire = true ->
  json_loads (json_dumps (json_str tok)) = Some (json_str tok) ->
  cache_read (snd (cache_set key (json_str tok) expire w)) key = Some (json_str tok)
  \/ cache_read (snd (cache_set key (json_str tok) expire w)) key = None.
Proof.
  intros Hc He Hj. rewrite cache_set_connected by assumption.
  unfold cache_read. simpl. rewrite lookup_insert_eq. simpl.
  destruct (str_bool _); [left; exact Hj|right; reflexivity].
Qed.

Lemma cache_read_after_logout (user_id : string) (w : World) :
  connected (redis w) = true ->
  cache_read (snd (logout user_id w)) (refresh_token_key user_id) = None.
Proof.
  intros Hc. unfold logout, bind, response_delete_cookie.
  rewrite cache_delete_connected by exact Hc. simpl.
  unfold cache_read. simpl. rewrite lookup_delete_eq. reflexivity.
Qed.

(** [AuthService.refresh_token] hands the integer settings to the token
    builders, which add them to a [datetime]: the call raises before anything
    is cached or sent. *)
Lemma refresh_token_raises (now : Z) (user_id : string) (w : World) :
  refresh_token now user_id w =
    (Raise (TypeError "unsupported operand type(s) for +: 'datetime.datetime' and 'int'"), w).
Proof. reflexivity. Qed.

End RefreshTokens.

(** C1 (as amended).  A refresh token that verifies, has type "refresh" and a
    non-empty subject is accepted, with the subject as the answer, exactly when
    it equals the value read from the cache under the account's key and the
    account is still in the database.  A token that differs from the cached
    value fails with "Token revoked or expired"; a token that matches while the
    account is gone fails with "User not found".  Validation changes nothing.
    Once another token has been stored under the key, with an expiry that
    SETEX takes (positive and within the server's range), or once [logout] has
    deleted the entry, the token fails with "Token revoked or expired". *)
Theorem validate_refresh_token_whitelist `{!Platform}
    (w : World) (token user_id : string) (payload : Claims) :
  jwt_decode token = Some payload ->
  type payload = Some "refresh"%string ->
  sub payload = Some user_id ->
  user_id <> ""%string ->
  let key := refresh_token_key user_id in
  (fst (validate_refresh_token token w) = Return user_id <->
     cache_read w key = Some (json_str token) /\
     exists u, get_user_by_id user_id w = (Return u, w))
  /\ (cache_read w key <> Some (json_str token) ->
      fst (validate_refresh_token token w) = Raise token_revoked)
  /\ (cache_read w key = Some (json_str token) ->
      (forall u, get_user_by_id user_id w <> (Return u, w)) ->
      fst (validate_refresh_token token w) =
        Raise (BaseCustomException 404 "User not found"
                 "The user with the given ID was not found."))
  /\ snd (validate_refresh_token token w) = w
  /\ (forall (new_token : string) (expire : Z),
        connected (redis w) = true ->
        0 < expire <= max_expire ->
        json_loads (json_dumps (json_str new_token)) = Some (json_str new_token) ->
        token <> new_token ->
        fst (validate_refresh_token token
               (snd (cache_set key (json_str new_token) expire w))) = Raise token_revoked)
  /\ (connected (redis w) = true ->
      fst (validate_refresh_token token (snd (logout user_id w))) = Raise token_revoked).
Proof.
  intros Hd Ht Hs Hne key.
  assert (Heval := fun w' => validate_refresh_token_eval token user_id payload w' Hd Ht Hs Hne).
  fold key in Heval.
  split; [split|split; [|split; [|split; [|split]]]].
  - rewrite Heval. intros Hv.
    destruct (bool_decide_reflect (cache_read w key = Some (json_str token))) as [Hc|Hc];
      [|discriminate Hv].
    split; [exact Hc|].
    destruct (get_user_by_id_cases user_id w) as [[u Hu]|Hu]; [eauto|].
    rewrite Hu in Hv. discriminate Hv.
  - intros [Hc [u Hu]]. rewrite Heval, Hu.
    rewrite bool_decide_eq_true_2 by exact Hc. reflexivity.
  - intros Hc. rewrite Heval. rewrite bool_decide_eq_false_2 by exact Hc. reflexivity.
  - intros Hc Hu. rewrite Heval. rewrite bool_decide_eq_true_2 by exact Hc.
    destruct (get_user_by_id_cases user_id w) as [[u Hu']|Hu'].
    + destruct (Hu u Hu').
    + rewrite Hu'. reflexivity.
  - rewrite Heval. destruct (bool_decide _); [|reflexivity].
    destruct (get_user_by_id user_id w) as [[u|e] w']; reflexivity.
  - intros new_token expire Hc He Hj Hneq. rewrite Heval.
    apply setex_accepts_range in He.
    rewrite bool_decide_eq_false_2; [reflexivity|].
    destruct (cache_read_after_set key new_token expire w Hc He Hj) as [Hr|Hr];
      rewrite Hr; congruence.
  - intros Hc. rewrite Heval.
    rewrite bool_decide_eq_false_2; [reflexivity|].
    unfold key. rewrite cache_read_after_logout by exact Hc. discriminate.
Qed.

(** C1, as stated, fails.  The token of a vanished account equals the cached
    value and is answered with "User not found"; a token with an empty subject
    equals the cached value and is answered with "Invalid token claims". *)
Lemma validate_refresh_token_not_only_cache :
  let gone := "refresh.ghost.1000"%string in
  let w := Demo.world (Demo.holding "ghost" gone) Demo.with_jane Demo.no_minio in
  let blank := "refresh..1000"%string in
  let w' := Demo.world (Demo.holding "" blank) Demo.with_jane Demo.no_minio in
  (@jwt_decode Demo.platform gone = Some (Demo.issued "refresh" "ghost" 1000 604800)
   /\ @cache_read Demo.platform w (refresh_token_key "ghost") = Some (json_str gone)
   /\ fst (@validate_refresh_token Demo.platform gone w) =
        Raise (BaseCustomException 404 "User not found"
                 "The user with the given ID was not found.")
   /\ ~ (fst (@validate_refresh_token Demo.platform gone w) = Return "ghost"%string <->
         @cache_read Demo.platform w (refresh_token_key "ghost") = Some (json_str gone)))
  /\ (@jwt_decode Demo.platform blank = Some (Demo.issued "refresh" "" 1000 604800)
      /\ @cache_read Demo.platform w' (refresh_token_key "") = Some (json_str blank)
      /\ fst (@validate_refresh_token Demo.platform blank w') =
           Raise (BaseCustomException 401 "Invalid token claims"
                    "The refresh token claims are invalid.")).
Proof.
  vm_compute.
  split; [split; [reflexivity|split; [reflexivity|split; [reflexivity|]]]|].
  - intros [_ Hback]. specialize (Hback eq_refl). discriminate Hback.
  - split; [reflexivity|split; reflexivity].
Qed.

Lemma validate_refresh_token_whitelist_witness :
  let token := "refresh.u1.1000"%string in
  let w := Demo.world (Demo.holding "u1" token) Demo.with_jane Demo.no_minio in
  fst (@validate_refresh_token Demo.platform token w) = Return "u1"%string
  /\ fst (@validate_refresh_token Demo.platform token
            (snd (@cache_set Demo.platform (refresh_token_key "u1")
                    (json_str "refresh.u1.1500") 604800 w))) = Raise token_revoked
  /\ fst (@validate_refresh_token Demo.platform token
            (snd (logout "u1" w))) = Raise token_revoked.
Proof.
  intros token w.
  destruct (@validate_refresh_token_whitelist Demo.platform w token "u1"
              (Demo.issued "refresh" "u1" 1000 604800))
    as (Hiff & _ & _ & _ & Hset & Hout).
  - vm_compute; reflexivity.
  - reflexivity.
  - reflexivity.
  - discriminate.
  - split; [|split].
    + apply Hiff. split; [vm_compute; reflexivity|].
      exists Demo.jane. vm_compute; reflexivity.
    + apply Hset; [reflexivity|vm_compute; split; [reflexivity|discriminate]
                  |vm_compute; reflexivity|discriminate].
    + apply Hout. reflexivity.
Defined.

(** ** The access-token guard *)

(** C10.  [get_current_user] accepts every token that verifies, carries a
    subject and names an existing active user; the type claim plays no part.
    In particular a refresh token made by [create_refresh_token] for that user
    is accepted for as long as it verifies. *)
Theorem get_current_user_ignores_type `{!Platform}
    (w : World) (token user_id : string) (payload : Claims) (user : User.t) :
  jwt_decode token = Some payload ->
  sub payload = Some user_id ->
  get_user_by_id user_id w = (Return user, w) ->
  User.is_active user = true ->
  get_current_user token w = (Return user, w)
  /\ (forall (now : Z) (w0 : World) (refresh : string),
        create_refresh_token now user_id None w0 = (Return refresh, w0) ->
        jwt_decode refresh =
          Some (mk_Claims (Some user_id)
                          (Some (now + REFRESH_TOKEN_EXPIRE_DAYS settings * 86400))
                          (Some now) (Some "refresh"%string)) ->
        get_current_user refresh w = (Return user, w)).
Proof.
  intros Hd Hs Hu Ha.
  assert (Hany : forall t p, jwt_decode t = Some p -> sub p = Some user_id ->
                             get_current_user t w = (Return user, w)).
  { intros t p Ht Hp. unfold get_current_user, try_except.
    rewrite Ht, Hp. unfold bind. rewrite Hu, Ha. reflexivity. }
  split; [exact (Hany token payload Hd Hs)|].
  intros now w0 refresh Hmk Hdec.
  exact (Hany refresh _ Hdec eq_refl).
Qed.

Lemma get_current_user_ignores_type_witness :
  let w := Demo.world Demo.no_redis Demo.with_jane Demo.no_minio in
  @get_current_user Demo.platform "refresh.u1.1000" w = (Return Demo.jane, w)
  /\ fst (@create_refresh_token Demo.platform 1000 "u1" None w) =
       Return "refresh.u1.1000"%string.
Proof.
  intros w.
  destruct (@get_current_user_ignores_type Demo.platform w "refresh.u1.1000" "u1"
              (Demo.issued "refresh" "u1" 1000 604800) Demo.jane) as [_ Hrefresh].
  - vm_compute; reflexivity.
  - reflexivity.
  - vm_compute; reflexivity.
  - reflexivity.
  - split; [|vm_compute; reflexivity].
    apply (Hrefresh 1000 w); vm_compute; reflexivity.
Defined.

(** ** Logout *)

(** C7, on the code.  [logout] raises "Token not found" exactly when the Redis
    command itself failed.  On a live connection it deletes the entry and
    returns, whether or not an entry was there. *)
Theorem logout_reports_only_failed_command (w : World) (user_id : string) :
  (fst (logout user_id w) = Raise token_not_found <-> connected (redis w) = false)
  /\ (connected (redis w) = true ->
      fst (logout user_id w) = Return tt
      /\ entries (redis (snd (logout user_id w))) !! refresh_token_key user_id = None).
Proof.
  unfold logout, bind, response_delete_cookie.
  destruct (connected (redis w)) eqn:Hc.
  - rewrite cache_delete_connected by exact Hc. simpl.
    split; [split; discriminate|].
    intros _. split; [reflexivity|apply lookup_delete_eq].
  - rewrite cache_delete_disconnected by exact Hc. simpl.
    split; [split; reflexivity|discriminate].
Qed.

Lemma logout_reports_only_failed_command_witness :
  let w := Demo.world Demo.no_redis Demo.with_jane Demo.no_minio in
  entries (redis w) !! refresh_token_key "u1" = None
  /\ fst (logout "u1" w) = Return tt.
Proof.
  intros w. split; [reflexivity|].
  apply (logout_reports_only_failed_command w "u1"). reflexivity.
Defined.

(** ** Registration *)

Section Registration.
Context `{!Platform}.

(** The existence query is refused, so the call ends there. *)
Lemma register_user_raises (email password full_name new_id : string)
    (token_hex : nat -> string) (w : World) :
  register_user email password full_name new_id token_hex w =
    (Raise sqlalchemy_ProgrammingError, w).
Proof.
  unfold register_user, bind at 1.
  unfold select_exists_where_email, raise. reflexivity.
Qed.

(** [strict] is no parameter of [slugify]. *)
Lemma slugify_call_strict (text : string) (w : World) :
  slugify_call text ["separator"; "strict"]%string w =
    (Raise (TypeError "slugify() got an unexpected keyword argument 'strict'"), w).
Proof.
  unfold slugify_call.
  replace (List.find _ _) with (Some "strict"%string) by (vm_compute; reflexivity).
  reflexivity.
Qed.

(** One turn of the loop ends at its first statement. *)
Lemma register_attempts_eval (n k : nat) (email full_name : string) (user : User.t)
    (profile : Profile.t) (token_hex : nat -> string) (w : World) :
  register_attempts (S n) k email full_name user profile token_hex w =
    (Raise (TypeError "slugify() got an unexpected keyword argument 'strict'"), w).
Proof.
  cbn [register_attempts]. unfold bind at 1.
  rewrite slugify_call_strict. reflexivity.
Qed.

End Registration.

(** C2, on the code.  [register_user] never answers the e-mail conflict and
    never registers: the existence query is refused by the database with
    [ProgrammingError], which nothing in the method catches, whether or not an
    account has the address.  The session and the database stay as they were,
    so no row is created in either case.  Had the query answered, its result
    object would have counted as true whatever its rows. *)
Theorem register_user_fails_at_existence_query `{!Platform}
    (email password full_name new_id : string) (token_hex : nat -> string) (w : World) :
  fst (register_user email password full_name new_id token_hex w) =
    Raise sqlalchemy_ProgrammingError
  /\ snd (register_user email password full_name new_id token_hex w) = w
  /\ fst (register_user email password full_name new_id token_hex w) <>
       Raise (BaseCustomException 409 "Invalid e-mail"
                "There is already an account with this e-mail address")
  /\ (forall user, fst (register_user email password full_name new_id token_hex w) <>
                     Return user)
  /\ get_user_by_email email
       (snd (register_user email password full_name new_id token_hex w)) =
     get_user_by_email email w
  /\ (forall existing_user : ScalarResult bool, ScalarResult_bool existing_user = true).
Proof.
  rewrite register_user_raises. cbn [fst snd].
  split; [reflexivity|].
  split; [reflexivity|].
  split; [discriminate|].
  split; [intros user; discriminate|].
  split; [reflexivity|].
  intros existing_user. reflexivity.
Qed.

(** The failing inputs of C2: Jane's address is registered, the other is not. *)
Lemma register_user_taken_and_fresh :
  let w := Demo.world Demo.no_redis Demo.with_jane Demo.no_minio in
  fst (get_user_by_email "a@x.com" w) = Return (Some Demo.jane)
  /\ @register_user Demo.platform "a@x.com" "longenough1" "Jane Doe" "u2"
       (fun _ => "0a1b2c3d"%string) w = (Raise sqlalchemy_ProgrammingError, w)
  /\ fst (get_user_by_email "b@x.com" w) = Return None
  /\ @register_user Demo.platform "b@x.com" "longenough1" "Jane Doe" "u2"
       (fun _ => "0a1b2c3d"%string) w = (Raise sqlalchemy_ProgrammingError, w).
Proof.
  intros w. split; [vm_compute; reflexivity|].
  split; [apply register_user_raises|].
  split; [vm_compute; reflexivity|].
  apply register_user_raises.
Qed.

(** C8, on the code.  The slug loop never retries and never builds a slug.
    Each turn begins with the call of [slugify], which passes a keyword that
    the function does not have and raises [TypeError]; no suffix is drawn,
    nothing is added to the session and no commit is tried, so no constraint
    violation can be met and the [except] clause is never reached.  The 500
    "Registration failed" is raised only by a loop of no turns, and the loop
    of [register_user] has [MAX_ATTEMPTS] = 5 of them.  [register_user] itself
    ends at the existence query, before the loop. *)
Theorem register_attempts_never_retries `{!Platform}
    (n k : nat) (email password full_name new_id : string) (user : User.t)
    (profile : Profile.t) (token_hex : nat -> string) (w : World) :
  register_attempts (S n) k email full_name user profile token_hex w =
    (Raise (TypeError "slugify() got an unexpected keyword argument 'strict'"), w)
  /\ register_attempts MAX_ATTEMPTS k email full_name user profile token_hex w =
       (Raise (TypeError "slugify() got an unexpected keyword argument 'strict'"), w)
  /\ register_attempts 0 k email full_name user profile token_hex w =
       (Raise (BaseCustomException 500 "Registration failed"
                 "Could not generate a unique username. Please try again."), w)
  /\ register_user email password full_name new_id token_hex w =
       (Raise sqlalchemy_ProgrammingError, w).
Proof.
  split; [apply register_attempts_eval|].
  split; [unfold MAX_ATTEMPTS; apply register_attempts_eval|].
  split; [reflexivity|].
  apply register_user_raises.
Qed.

(** The failing input of C8: the first turn of the loop for a new account,
    on a database that holds Jane's. *)
Lemma register_attempts_first_turn :
  let w := Demo.world Demo.no_redis Demo.with_jane Demo.no_minio in
  let user := User.mk "u2" "b@x.com" "bcrypt:longenough1" BUYER true in
  let profile := Profile.mk None None (Some "Jane Doe"%string) None None None None None None in
  @register_attempts Demo.platform MAX_ATTEMPTS 0 "b@x.com" "Jane Doe" user profile
    (fun _ => "0a1b2c3d"%string) w =
    (Raise (TypeError "slugify() got an unexpected keyword argument 'strict'"), w).
Proof. intros w user profile. vm_compute. reflexivity. Qed.

(** ** The upload pipeline *)

Section Upload.
Context `{!Platform}.

Lemma blank_app (s t : string) : blank (s +:+ t) = blank s && blank t.
Proof.
  induction s as [|c s IH]; simpl; [reflexivity|].
  rewrite IH. apply andb_assoc.
Qed.

Lemma blank_dot (s t : string) : blank (s +:+ "." +:+ t) = false.
Proof. rewrite blank_app. simpl. apply andb_false_r. Qed.

(** The object name of an upload has a dot in it, so the client takes it. *)
Lemma stored_name_not_blank (contents : list Byte.byte) (uuid_hex : string) :
  blank (stored_name contents uuid_hex) = false.
Proof. unfold stored_name. apply blank_dot. Qed.

(** [upload_image], gate by gate. *)
Lemma upload_image_eval (contents : list Byte.byte) (uuid_hex : string) (w : World) :
  upload_image contents uuid_hex w =
    match first_rejecting_gate contents with
    | Some empty_payload => (Raise (FileUploadException "Empty file"), w)
    | Some over_maximum =>
        (Raise (BaseCustomException 413 "File too large"
                  ("File size " +:+ pretty (Z.of_nat (length contents))
                   +:+ " exceeds limit of " +:+ pretty (MAX_UPLOAD_SIZE settings)
                   +:+ " bytes")), w)
    | Some mime_not_allowed =>
        (Raise (BaseCustomException 415 "Unsupported file type"
                  ("File type " +:+ magic_from_buffer contents +:+ " is not allowed")), w)
    | Some invalid_image => (Raise (FileUploadException "Invalid or corrupted image"), w)
    | Some scan_not_clean =>
        (Raise (scan_handler
                  match scan_stream contents with
                  | Return verdict => malware_detected verdict
                  | Raise e => e
                  end), w)
    | None =>
        if reachable (minio w)
        then (Return (magic_from_buffer contents, stored_name contents uuid_hex),
              set_minio
                (mk_Minio (<[stored_name contents uuid_hex :=
                               (contents, magic_from_buffer contents)]> (objects (minio w)))
                          true) w)
        else (Raise (FileUploadException
                       ("Upload failed: " +:+ str_of_exn (Exception "MaxRetryError"))), w)
    end.
Proof.
  unfold upload_image, first_rejecting_gate, gates, List.find, rejects.
  destruct (Z.of_nat (length contents) =? 0); [reflexivity|].
  destruct (int_bool (MAX_UPLOAD_SIZE settings)
            && (Z.of_nat (length contents) >? MAX_UPLOAD_SIZE settings)); [reflexivity|].
  destruct (negb (bool_decide (ALLOWED_IMAGE_MIMES settings = []))
            && negb (bool_decide (magic_from_buffer contents ∈ ALLOWED_IMAGE_MIMES settings)));
    [reflexivity|].
  unfold bind at 1. unfold try_except at 1. unfold Image_open_verify.
  destruct (image_verify contents); simpl; [|reflexivity].
  unfold bind at 1. unfold try_except at 1. unfold bind at 1. unfold clamd_scan_stream.
  destruct (scan_stream contents) as [verdict|e]; simpl.
  - destruct (verdict_bool verdict); simpl; [reflexivity|].
    unfold bind, try_except, client_put_object.
    rewrite blank_dot.
    destruct (reachable (minio w)); reflexivity.
  - destruct e; reflexivity.
Qed.

End Upload.

(** C3, on the code.  A threat verdict makes the pipeline raise the 400
    "Malware detected" error inside the [try] block around the scan; the
    [except Exception] clause of that block catches it, and what leaves
    [upload_image] is the 500 "Unexpected scan error". *)
Theorem upload_image_malware_becomes_scan_error `{!Platform}
    (contents : list Byte.byte) (uuid_hex : string) (w : World) (verdict : scan_verdict) :
  first_rejecting_gate contents = Some scan_not_clean ->
  scan_stream contents = Return verdict ->
  upload_image contents uuid_hex w =
    (Raise (BaseCustomException 500 "Unexpected scan error"
              ("Error during antivirus scan: " +:+ str_of_exn (malware_detected verdict))), w)
  /\ status_code (malware_detected verdict) = Some 400.
Proof.
  intros Hg Hs. rewrite upload_image_eval, Hg, Hs. split; reflexivity.
Qed.

Lemma upload_image_malware_becomes_scan_error_witness :
  let contents := [Byte.x89; Byte.x50; Byte.x58; Byte.x01] in
  let w := Demo.world Demo.no_redis Demo.with_jane Demo.no_minio in
  @upload_image Demo.platform contents "abc" w =
    (Raise (BaseCustomException 500 "Unexpected scan error"
              "Error during antivirus scan: Malware detected"), w).
Proof.
  intros contents w.
  destruct (@upload_image_malware_becomes_scan_error Demo.platform contents "abc" w
              (Some {[ "stream"%string :=
                         ("FOUND"%string, "Eicar-Test-Signature"%string) ]}))
    as [Hrun _].
  - vm_compute; reflexivity.
  - reflexivity.
  - exact Hrun.
Defined.

(** C4.  Whatever gate rejects the payload first, in the order empty, size,
    MIME, image, scan, [upload_image] fails with that gate's error and the
    world, the object store included, is as before.  The store is written only
    when no gate rejects, and then with the payload under the generated
    name. *)
Theorem upload_image_writes_after_all_gates `{!Platform}
    (contents : list Byte.byte) (uuid_hex : string) (w : World) :
  (forall g, first_rejecting_gate contents = Some g ->
     exists e, upload_image contents uuid_hex w = (Raise e, w) /\ rejected_with g e)
  /\ (objects (minio (snd (upload_image contents uuid_hex w))) <> objects (minio w) ->
      first_rejecting_gate contents = None)
  /\ (forall e, fst (upload_image contents uuid_hex w) = Raise e ->
      snd (upload_image contents uuid_hex w) = w)
  /\ (first_rejecting_gate contents = None ->
      reachable (minio w) = true ->
      fst (upload_image contents uuid_hex w) =
        Return (magic_from_buffer contents, stored_name contents uuid_hex)
      /\ objects (minio (snd (upload_image contents uuid_hex w))) =
           <[stored_name contents uuid_hex := (contents, magic_from_buffer contents)]>
             (objects (minio w))).
Proof.
  rewrite upload_image_eval.
  split; [|split; [|split]].
  - intros g Hg. rewrite Hg. destruct g; eexists; (split; [reflexivity|]); simpl; auto.
    destruct (scan_stream contents) as [verdict|e]; [right; split; reflexivity|].
    destruct e; simpl; auto.
  - destruct (first_rejecting_gate contents) as [g|]; [|reflexivity].
    intros Hne. exfalso. apply Hne. destruct g; reflexivity.
  - intros e. destruct (first_rejecting_gate contents) as [g|].
    + destruct g; reflexivity.
    + destruct (reachable (minio w)); [discriminate|reflexivity].
  - intros Hg Hr. rewrite Hg, Hr. split; reflexivity.
Qed.

Lemma upload_image_writes_after_all_gates_witness :
  let w := Demo.world Demo.no_redis Demo.with_jane Demo.no_minio in
  let png := [Byte.x89; Byte.x50; Byte.x4e; Byte.x47] in
  (exists e, @upload_image Demo.platform [] "abc" w = (Raise e, w)
             /\ rejected_with empty_payload e)
  /\ (exists e, @upload_image Demo.platform [Byte.x47; Byte.x49; Byte.x46] "abc" w = (Raise e, w)
                /\ rejected_with mime_not_allowed e)
  /\ objects (minio (snd (@upload_image Demo.platform png "abc" w))) =
       {[ "abc.png"%string := (png, "image/png"%string) ]}.
Proof.
  intros w png. split; [|split].
  - apply (@upload_image_writes_after_all_gates Demo.platform [] "abc" w).
    vm_compute; reflexivity.
  - apply (@upload_image_writes_after_all_gates Demo.platform
             [Byte.x47; Byte.x49; Byte.x46] "abc" w).
    vm_compute; reflexivity.
  - destruct (@upload_image_writes_after_all_gates Demo.platform png "abc" w)
      as (_ & _ & _ & Hput).
    destruct Hput as [_ Hobjects]; [vm_compute; reflexivity|reflexivity|].
    rewrite Hobjects. vm_compute; reflexivity.
Defined.

(** ** Profile pictures *)

(** C9, on the code.  [upload_picture] never stores a picture.  The call to
    [delete_file] is not awaited, so the old object is not removed; the call to
    [upload_image] passes the bucket name as a second positional argument and
    raises [TypeError] before the pipeline starts.  Every call ends in an
    exception and leaves the object store and the profile as they were. *)
Theorem upload_picture_never_stores `{!Platform}
    (picture : list Byte.byte) (user_id uuid_hex : string) (w : World) :
  exists e,
    upload_picture picture user_id uuid_hex w = (Raise e, w)
    /\ (e = TypeError
              "StorageService.upload_image() takes 2 positional arguments but 3 were given"
        \/ e = AttributeError "'NoneType' object has no attribute 'picture_filename'").
Proof.
  unfold upload_picture, bind, select_profile_where_user_id. simpl.
  destruct (first _) as [profile|]; [|eexists; split; [reflexivity|right; reflexivity]].
  exists (TypeError
            "StorageService.upload_image() takes 2 positional arguments but 3 were given").
  split; [|left; reflexivity].
  destruct (Profile.picture_filename profile) as [name|]; [|reflexivity].
  destruct (str_bool name); reflexivity.
Qed.

(** The failing input of C9: Jane has a stored picture and uploads a new one. *)
Lemma upload_picture_keeps_old_object :
  let w := Demo.world Demo.no_redis Demo.with_jane Demo.old_picture in
  let after := snd (@upload_picture Demo.platform
                      [Byte.x89; Byte.x50; Byte.x4e; Byte.x47] "u1" "abc" w) in
  Profile.picture_filename Demo.jane_profile = Some "old.png"%string
  /\ is_Some (objects (minio after) !! "old.png"%string)
  /\ objects (minio after) !! "abc.png"%string = None
  /\ profiles (database (session after)) !! "u1"%string = Some Demo.jane_profile.
Proof.
  vm_compute. split; [reflexivity|split; [eexists; reflexivity|split; reflexivity]].
Qed.

(** ** Seller applications *)

Section Review.
Context `{!Platform}.

(** A row loaded from the database never passes the pending test: its status
    is a member of the models enumeration, the test compares it with a member
    of the schema enumeration. *)
Lemma review_application_eval (application_id reviewer_id : string)
    (review : SellerApplicationReview.t) (now : Z) (w : World) :
  review_application application_id reviewer_id review now w =
    if bool_decide (SellerApplicationReview.status review = PENDING)
    then (Raise invalid_review_status, w)
    else match seller_applications (database (session w)) !! application_id with
         | Some _ => (Raise already_reviewed, w)
         | None =>
             (Raise (BaseCustomException 404 "Not found" "Seller application not found"), w)
         end.
Proof.
  unfold review_application, status_is.
  destruct (SellerApplicationReview.status review); simpl;
    try reflexivity;
    unfold bind, select_application_where_id, first; simpl;
    destruct (seller_applications _ !! _); reflexivity.
Qed.

(** The statements after the guards keep status and role together: on
    approval either the call returns with the application stored as the
    column binds the approved member and the applicant stored as seller, or it
    raises and the database is as before. *)
Lemma record_review_atomic (req : SellerApplication.t) (reviewer_id : string)
    (review : SellerApplicationReview.t) (now : Z) (w : World) :
  pending (session w) = [] ->
  keyed_by_id (database (session w)) ->
  SellerApplicationReview.status review = APPROVED ->
  match record_review req reviewer_id review now w with
  | (Return _, w') =>
      (User.role <$> users (database (session w')) !! SellerApplication.user_id req)
        = Some SELLER
      /\ (SellerApplication.row_status <$>
            seller_applications (database (session w')) !! SellerApplication.id req)
           = bind_schema_status APPROVED
      /\ is_Some (bind_schema_status APPROVED)
  | (Raise _, w') => database (session w') = database (session w)
  end.
Proof.
  intros Hp Hk Hs. unfold record_review. rewrite Hs. simpl.
  unfold bind at 1. unfold session_mark. rewrite Hp. simpl.
  unfold bind at 1. unfold bind at 1.
  unfold update_user, get_user_by_id.
  unfold bind at 1. unfold bind at 1. unfold session_get_user. simpl.
  destruct (users (database (session w)) !! SellerApplication.user_id req)
    as [u|] eqn:Hu; simpl; [|reflexivity].
  assert (Hid := Hk _ _ Hu).
  unfold bind at 1. simpl. unfold bind at 1. unfold assign_user.
  unfold bind at 1. unfold session_mark. simpl.
  unfold bind at 1. simpl. unfold bind at 1. unfold session_commit. simpl.
  destruct (bind_schema_status APPROVED) as [s|] eqn:Hb; simpl; [|reflexivity].
  destruct (email_taken _ _ _); simpl; [reflexivity|].
  unfold bind, session_refresh_user, session_refresh_application, ret. simpl.
  rewrite lookup_insert_eq. simpl. rewrite lookup_insert_eq. simpl.
  rewrite Hid, lookup_insert_eq. simpl.
  split; [reflexivity|]. rewrite lookup_insert_eq. split; [reflexivity|eauto].
Qed.

End Review.

(** C5 (as amended).  Once an application is approved or rejected, a review
    that asks for approved or rejected fails with "Already reviewed" and a
    review that asks for pending fails with "Invalid review status"; in both
    cases the session and the database, hence the application's status,
    reviewer, notes and review time, are untouched. *)
Theorem review_application_reviewed_is_terminal `{!Platform}
    (application_id reviewer_id : string) (review : SellerApplicationReview.t)
    (now : Z) (w : World) (row : SellerApplication.row) :
  seller_applications (database (session w)) !! application_id = Some row ->
  SellerApplication.row_status row = APPROVED \/ SellerApplication.row_status row = REJECTED ->
  (SellerApplicationReview.status review <> PENDING ->
   review_application application_id reviewer_id review now w = (Raise already_reviewed, w))
  /\ (SellerApplicationReview.status review = PENDING ->
      review_application application_id reviewer_id review now w =
        (Raise invalid_review_status, w))
  /\ seller_applications (database (session
       (snd (review_application application_id reviewer_id review now w))))
       !! application_id = Some row.
Proof.
  intros Hrow _. rewrite review_application_eval, Hrow.
  destruct (bool_decide_reflect (SellerApplicationReview.status review = PENDING)) as [Hp|Hp].
  - split; [intros Hn; destruct (Hn Hp)|split; [reflexivity|exact Hrow]].
  - split; [reflexivity|split; [intros Hn; destruct (Hp Hn)|exact Hrow]].
Qed.

(** C5, as stated, fails: a review that asks for pending on an approved
    application is answered with "Invalid review status". *)
Lemma review_application_pending_request :
  let w := Demo.world Demo.no_redis (Demo.with_application APPROVED) Demo.no_minio in
  let review := SellerApplicationReview.mk PENDING None in
  (SellerApplication.row_status <$>
     seller_applications (database (session w)) !! "app1"%string) = Some APPROVED
  /\ fst (@review_application Demo.platform "app1" "admin" review 1000 w) =
       Raise invalid_review_status
  /\ fst (@review_application Demo.platform "app1" "admin" review 1000 w) <>
       Raise already_reviewed.
Proof.
  vm_compute. split; [reflexivity|split; [reflexivity|discriminate]].
Qed.

Lemma review_application_reviewed_is_terminal_witness :
  let w := Demo.world Demo.no_redis (Demo.with_application APPROVED) Demo.no_minio in
  @review_application Demo.platform "app1" "admin"
    (SellerApplicationReview.mk REJECTED (Some "changed my mind"%string)) 1000 w =
    (Raise already_reviewed, w)
  /\ @review_application Demo.platform "app1" "admin"
       (SellerApplicationReview.mk PENDING None) 1000 w =
       (Raise invalid_review_status, w).
Proof.
  intros w. split.
  - apply (@review_application_reviewed_is_terminal Demo.platform "app1" "admin"
             (SellerApplicationReview.mk REJECTED (Some "changed my mind"%string)) 1000 w
             (Demo.application APPROVED)); [reflexivity|left; reflexivity|discriminate].
  - apply (@review_application_reviewed_is_terminal Demo.platform "app1" "admin"
             (SellerApplicationReview.mk PENDING None) 1000 w
             (Demo.application APPROVED)); [reflexivity|left; reflexivity|reflexivity].
Defined.

(** C6, on the code.  A review that approves a pending application is answered
    with "Already reviewed": the application stays pending and the applicant
    keeps the role held before.  No call of [review_application] returns. *)
Theorem review_application_never_approves `{!Platform}
    (application_id reviewer_id : string) (review : SellerApplicationReview.t)
    (now : Z) (w : World) (row : SellerApplication.row) :
  seller_applications (database (session w)) !! application_id = Some row ->
  SellerApplication.row_status row = PENDING ->
  SellerApplicationReview.status review = APPROVED ->
  review_application application_id reviewer_id review now w = (Raise already_reviewed, w)
  /\ (forall a r n w', exists e, review_application a reviewer_id r n w' = (Raise e, w')).
Proof.
  intros Hrow _ Hs. split.
  - rewrite review_application_eval, Hrow, Hs. reflexivity.
  - intros a r n w'. rewrite review_application_eval.
    destruct (bool_decide _); [eexists; reflexivity|].
    destruct (seller_applications (database (session w')) !! a); eexists; reflexivity.
Qed.

Lemma review_application_never_approves_witness :
  let w := Demo.world Demo.no_redis (Demo.with_application PENDING) Demo.no_minio in
  let after := snd (@review_application Demo.platform "app1" "admin"
                      (SellerApplicationReview.mk APPROVED (Some "welcome"%string)) 1000 w) in
  fst (@review_application Demo.platform "app1" "admin"
         (SellerApplicationReview.mk APPROVED (Some "welcome"%string)) 1000 w) =
    Raise already_reviewed
  /\ (User.role <$> users (database (session after)) !! "u1"%string) = Some BUYER
  /\ (SellerApplication.row_status <$>
        seller_applications (database (session after)) !! "app1"%string) = Some PENDING.
Proof.
  intros w after.
  destruct (@review_application_never_approves Demo.platform "app1" "admin"
              (SellerApplicationReview.mk APPROVED (Some "welcome"%string)) 1000 w
              (Demo.application PENDING)) as [Hrun _];
    [reflexivity|reflexivity|reflexivity|].
  unfold after. rewrite Hrun. split; [reflexivity|split; reflexivity].
Defined.
(** * Further properties of the service layer *)

(** ** Looking accounts up *)

Section DatabaseFacts.

Lemma elem_of_all_users (db : Database) (u : User.t) :
  u ∈ all_users db <-> exists k, users db !! k = Some u.
Proof.
  unfold all_users. rewrite list_elem_of_fmap. split.
  - intros [[k u'] [-> Hin]]. apply elem_of_map_to_list in Hin. eauto.
  - intros [k Hk]. exists (k, u). split; [reflexivity|]. by apply elem_of_map_to_list.
Qed.

Lemma get_user_by_email_eval (email : string) (w : World) :
  get_user_by_email email w =
    (Return (head (filter (fun u => User.email u = email)
                          (all_users (database (session w))))), w).
Proof. reflexivity. Qed.

Lemma head_filter_Some {A} (P : A -> Prop) `{forall x, Decision (P x)} (l : list A) (x : A) :
  head (filter P l) = Some x -> P x /\ x ∈ l.
Proof.
  intros Hh. apply head_Some_elem_of in Hh. by apply list_elem_of_filter in Hh.
Qed.

Lemma head_filter_None {A} (P : A -> Prop) `{forall x, Decision (P x)} (l : list A) :
  head (filter P l) = None <-> forall x, x ∈ l -> ~ P x.
Proof.
  rewrite head_None. split.
  - intros Hnil x Hx HP. exact (filter_nil_not_elem_of P l x Hnil HP Hx).
  - intros Hall. destruct (filter P l) as [|y l'] eqn:Hf; [reflexivity|].
    assert (Hy : y ∈ filter P l) by (rewrite Hf; left).
    apply list_elem_of_filter in Hy as [HP Hy]. destruct (Hall y Hy HP).
Qed.

End DatabaseFacts.

(** X1.  [get_user_by_email] never raises and leaves the world alone.  What it
    finds is a stored account with the address asked for; it finds nothing
    exactly when no stored account has that address. *)
Theorem get_user_by_email_finds (email : string) (w : World) :
  exists found,
    get_user_by_email email w = (Return found, w)
    /\ (forall u, found = Some u ->
          User.email u = email
          /\ exists k, users (database (session w)) !! k = Some u)
    /\ (found = None <->
        forall k u, users (database (session w)) !! k = Some u -> User.email u <> email).
Proof.
  rewrite get_user_by_email_eval. eexists. split; [reflexivity|]. split.
  - intros u Hu. apply head_filter_Some in Hu as [He Hin].
    split; [exact He|]. by apply elem_of_all_users.
  - rewrite head_filter_None. split.
    + intros Hall k u Hk. apply Hall. apply elem_of_all_users. eauto.
    + intros Hall u Hin. apply elem_of_all_users in Hin as [k Hk]. eauto.
Qed.

(** ** Authentication *)

Section Authentication.
Context `{!Platform}.

Lemma authenticate_eval (email password : string) (w : World) :
  authenticate email password w =
    match head (filter (fun u => User.email u = email)
                       (all_users (database (session w)))) with
    | None => (Raise invalid_credentials, w)
    | Some u =>
        if negb (User.is_active u) then (Raise inactive_account, w)
        else if negb (verify_password password (User.password_hash u))
        then (Raise invalid_credentials, w)
        else (Return u, w)
    end.
Proof.
  unfold authenticate, bind. rewrite get_user_by_email_eval.
  destruct (head _) as [u|]; [|reflexivity].
  destruct (User.is_active u); simpl; [|reflexivity].
  destruct (verify_password _ _); reflexivity.
Qed.

End Authentication.

(** X2.  Whoever [authenticate] returns is a stored account with the address
    given, active, and whose stored hash verifies the password given; the
    world is left as it was. *)
Theorem authenticate_sound `{!Platform}
    (email password : string) (w w' : World) (user : User.t) :
  authenticate email password w = (Return user, w') ->
  w' = w
  /\ User.email user = email
  /\ User.is_active user = true
  /\ verify_password password (User.password_hash user) = true
  /\ exists k, users (database (session w)) !! k = Some user.
Proof.
  rewrite authenticate_eval.
  destruct (head _) as [u|] eqn:Hh; [|discriminate].
  destruct (User.is_active u) eqn:Ha; simpl; [|discriminate].
  destruct (verify_password _ _) eqn:Hv; simpl; [|discriminate].
  intros [= <- <-]. apply head_filter_Some in Hh as [He Hin].
  repeat split; try assumption. by apply elem_of_all_users.
Qed.

Lemma authenticate_sound_witness :
  let w := Demo.world Demo.no_redis Demo.with_jane Demo.no_minio in
  @authenticate Demo.platform "a@x.com" "longenough1" w = (Return Demo.jane, w)
  /\ User.is_active Demo.jane = true.
Proof.
  intros w.
  assert (Hrun : @authenticate Demo.platform "a@x.com" "longenough1" w =
                 (Return Demo.jane, w)) by (vm_compute; reflexivity).
  split; [exact Hrun|].
  apply (@authenticate_sound Demo.platform "a@x.com" "longenough1" w w Demo.jane Hrun).
Defined.



(** ** The guards of the protected routes *)

Section Guards.
Context `{!Platform}.

Lemma get_current_user_eval (token : string) (w : World) :
  get_current_user token w =
    match jwt_decode token with
    | Some payload =>
        match sub payload with
        | Some user_id =>
            match get_user_by_id user_id w with
            | (Return user, _) =>
                if User.is_active user then (Return user, w)
                else (Raise credentials_exception, w)
            | (Raise _, _) => (Raise credentials_exception, w)
            end
        | None => (Raise credentials_exception, w)
        end
    | None => (Raise credentials_exception, w)
    end.
Proof.
  unfold get_current_user, try_except.
  destruct (jwt_decode token) as [payload|]; [|reflexivity].
  destruct (sub payload) as [user_id|]; [|reflexivity].
  unfold bind.
  destruct (get_user_by_id_cases user_id w) as [[u Hu]|Hu]; rewrite Hu; simpl.
  - destruct (User.is_active u); reflexivity.
  - reflexivity.
Qed.

Lemma get_current_user_cases (token : string) (w : World) :
  (exists user, get_current_user token w = (Return user, w) /\ User.is_active user = true)
  \/ get_current_user token w = (Raise credentials_exception, w).
Proof.
  rewrite get_current_user_eval.
  destruct (jwt_decode token) as [payload|]; [|right; reflexivity].
  destruct (sub payload) as [user_id|]; [|right; reflexivity].
  destruct (get_user_by_id_cases user_id w) as [[u Hu]|Hu]; rewrite Hu; [|right; reflexivity].
  destruct (User.is_active u) eqn:Ha; [left; eauto|right; reflexivity].
Qed.

End Guards.

(** X4.  [get_current_user] has two outcomes and changes nothing.  Either it
    returns an active account, the one stored under the subject of a token
    that verifies; or it raises the one 401 "Authentication Error", whatever
    went wrong (bad or expired token, missing subject, unknown or deactivated
    account). *)
Theorem get_current_user_outcomes `{!Platform} (token : string) (w : World) :
  (exists user payload user_id,
      get_current_user token w = (Return user, w)
      /\ jwt_decode token = Some payload
      /\ sub payload = Some user_id
      /\ get_user_by_id user_id w = (Return user, w)
      /\ User.is_active user = true)
  \/ (get_current_user token w = (Raise credentials_exception, w)
      /\ status_code credentials_exception = Some 401).
Proof.
  rewrite get_current_user_eval.
  destruct (jwt_decode token) as [payload|] eqn:Hd; [|right; split; reflexivity].
  destruct (sub payload) as [user_id|] eqn:Hs; [|right; split; reflexivity].
  destruct (get_user_by_id_cases user_id w) as [[u Hu]|Hu]; rewrite Hu.
  - destruct (User.is_active u) eqn:Ha; [|right; split; reflexivity].
    left. exists u, payload, user_id. repeat split; assumption.
  - right; split; reflexivity.
Qed.

(** X5.  The role guard lets through only what [get_current_user] returned,
    and only if that account's role is one of the allowed roles: there is no
    implied rank between roles.  Its failures are the 401 of
    [get_current_user] and the 403 "Forbidden"; it changes nothing. *)
Theorem require_role_outcomes `{!Platform}
    (allowed_roles : list UserRole) (token : string) (w : World) :
  snd (require_role allowed_roles token w) = w
  /\ (forall user, fst (require_role allowed_roles token w) = Return user ->
        get_current_user token w = (Return user, w)
        /\ User.role user ∈ allowed_roles
        /\ User.is_active user = true)
  /\ (forall e, fst (require_role allowed_roles token w) = Raise e ->
        (e = credentials_exception /\ fst (get_current_user token w) = Raise e)
        \/ (status_code e = Some 403 /\ error e = Some "Forbidden"%string
            /\ exists user, get_current_user token w = (Return user, w)
                            /\ User.role user ∉ allowed_roles)).
Proof.
  unfold require_role, bind.
  destruct (get_current_user_cases token w) as [(u & Hrun & Ha)|Hrun]; rewrite Hrun.
  - destruct (bool_decide_reflect (User.role u ∈ allowed_roles)) as [Hin|Hin]; simpl.
    + split; [reflexivity|]. split; [|discriminate].
      intros user [= <-]. repeat split; assumption.
    + split; [reflexivity|]. split; [discriminate|].
      intros e [= <-]. right. split; [reflexivity|split; [reflexivity|eauto]].
  - simpl. split; [reflexivity|]. split; [discriminate|].
    intros e [= <-]. left. split; reflexivity.
Qed.

Lemma require_role_outcomes_witness :
  let w := Demo.world Demo.no_redis Demo.with_jane Demo.no_minio in
  fst (@require_role Demo.platform [BUYER] "access.u1.1000" w) = Return Demo.jane
  /\ User.role Demo.jane ∈ [BUYER]
  /\ fst (@require_role Demo.platform [ADMIN; SELLER] "access.u1.1000" w) =
       Raise (BaseCustomException 403 "Forbidden"
                "This action requires one of these roles: ['admin', 'seller']").
Proof.
  intros w.
  assert (Hrun : fst (@require_role Demo.platform [BUYER] "access.u1.1000" w) =
                 Return Demo.jane) by (vm_compute; reflexivity).
  split; [exact Hrun|]. split; [|vm_compute; reflexivity].
  destruct (@require_role_outcomes Demo.platform [BUYER] "access.u1.1000" w)
    as (_ & Hret & _).
  apply (Hret Demo.jane Hrun).
Defined.

(** ** Refresh tokens *)

Section RefreshFacts.
Context `{!Platform}.


End RefreshFacts.



(** ** The cache helpers *)

Section CacheLaws.
Context `{!Platform}.

Lemma cache_read_set_redis (r : Redis) (w : World) (key : string) :
  cache_read (set_redis r w) key =
    cache_read (mk_World r (session w) (minio w) (response w)) key.
Proof. reflexivity. Qed.

Lemma get_user_by_id_set_redis (r : Redis) (user_id : string) (w : World) (u : User.t) :
  get_user_by_id user_id w = (Return u, w) ->
  get_user_by_id user_id (set_redis r w) = (Return u, set_redis r w).
Proof.
  unfold get_user_by_id, bind, session_get_user, ret, raise. simpl.
  destruct (modified_user _ _); [intros [= <-]; reflexivity|].
  destruct (users _ !! _); [intros [= <-]; reflexivity|discriminate].
Qed.

End CacheLaws.

(** X7.  On a live connection, with an expiry that SETEX takes (positive and
    within the server's range), what [cache_set] stores under a key is what
    [cache_get] reads back from it, provided the value survives the JSON round
    trip and its JSON text is not empty; the entry carries the expiry given,
    replaces whatever was there, and no other key is affected.  With any other
    expiry [cache_set] answers [False] and stores nothing. *)
Theorem cache_set_then_get `{!Platform}
    (key : string) (value : json) (expire : Z) (w : World) :
  connected (redis w) = true ->
  json_loads (json_dumps value) = Some value ->
  json_dumps value <> ""%string ->
  let w' := snd (cache_set key value expire w) in
  (0 < expire <= max_expire ->
     fst (cache_set key value expire w) = Return true
     /\ cache_get key w' = (Return (Some value), w')
     /\ entries (redis w') !! key = Some (expire, json_dumps value)
     /\ (forall key', key' <> key ->
           entries (redis w') !! key' = entries (redis w) !! key'
           /\ fst (cache_get key' w') = fst (cache_get key' w)))
  /\ (~ (0 < expire <= max_expire) ->
      cache_set key value expire w = (Return false, w)).
Proof.
  intros Hc Hj Hne w'. split.
  - intros He. apply setex_accepts_range in He.
    unfold w'. rewrite cache_set_connected by assumption. simpl.
    split; [reflexivity|]. split; [|split].
    + rewrite cache_get_eval. unfold cache_read. simpl. rewrite lookup_insert_eq. simpl.
      unfold str_bool. rewrite bool_decide_eq_false_2 by exact Hne. simpl.
      rewrite Hj. reflexivity.
    + apply lookup_insert_eq.
    + intros key' Hk. split; [apply lookup_insert_ne; congruence|].
      rewrite !cache_get_eval. unfold cache_read. simpl.
      rewrite Hc, lookup_insert_ne by congruence. reflexivity.
  - intros He. apply cache_set_refused.
    destruct (setex_accepts expire) eqn:Ha; [|reflexivity].
    apply setex_accepts_range in Ha. contradiction.
Qed.

Lemma cache_set_then_get_witness :
  let w := Demo.world (Demo.holding "u1" "refresh.u1.1000") Demo.with_jane Demo.no_minio in
  let w' := snd (@cache_set Demo.platform "refresh_token:u1" (json_str "refresh.u1.1500")
                   604800 w) in
  fst (@cache_get Demo.platform "refresh_token:u1" w') =
    Return (Some (json_str "refresh.u1.1500")).
Proof.
  intros w w'.
  destruct (@cache_set_then_get Demo.platform "refresh_token:u1"
              (json_str "refresh.u1.1500") 604800 w) as [Hstored _].
  - reflexivity.
  - vm_compute; reflexivity.
  - discriminate.
  - destruct Hstored as (_ & Hget & _).
    + vm_compute. split; [reflexivity|discriminate].
    + unfold w'. rewrite Hget. reflexivity.
Defined.

(** X8.  The three cache helpers never raise.  On a lost connection
    [cache_set] answers [False], [cache_get] answers [None] and [cache_delete]
    answers [False], and nothing is changed; [cache_get] never changes
    anything, and answers [None] for a missing key. *)
Theorem cache_helpers_never_raise `{!Platform}
    (key : string) (value : json) (expire : Z) (w : World) :
  (exists b, fst (cache_set key value expire w) = Return b)
  /\ (exists v, cache_get key w = (Return v, w))
  /\ (exists b, fst (cache_delete key w) = Return b)
  /\ (entries (redis w) !! key = None -> fst (cache_get key w) = Return None)
  /\ (connected (redis w) = false ->
      cache_set key value expire w = (Return false, w)
      /\ cache_get key w = (Return None, w)
      /\ cache_delete key w = (Return false, w)).
Proof.
  split; [|split; [|split; [|split]]].
  - unfold cache_set, try_except, bind, client_setex, ret.
    destruct (connected (redis w)); [|eexists; reflexivity].
    destruct (setex_accepts expire); eexists; reflexivity.
  - rewrite cache_get_eval. eexists; reflexivity.
  - unfold cache_delete, try_except, bind, client_delete, ret.
    destruct (connected (redis w)); eexists; reflexivity.
  - intros Hk. rewrite cache_get_eval. unfold cache_read. rewrite Hk. simpl.
    destruct (connected (redis w)); reflexivity.
  - intros Hc. split; [|split].
    + apply cache_set_disconnected. exact Hc.
    + rewrite cache_get_eval. unfold cache_read. rewrite Hc. reflexivity.
    + apply cache_delete_disconnected. exact Hc.
Qed.

(** X9.  On a live connection [cache_delete] answers [True] whether or not the
    key was there; afterwards [cache_get] reads [None] from that key, and every
    other key reads as before. *)
Theorem cache_delete_then_get `{!Platform} (key : string) (w : World) :
  connected (redis w) = true ->
  let w' := snd (cache_delete key w) in
  fst (cache_delete key w) = Return true
  /\ cache_get key w' = (Return None, w')
  /\ (forall key', key' <> key -> fst (cache_get key' w') = fst (cache_get key' w)).
Proof.
  intros Hc w'. unfold w'. rewrite cache_delete_connected by exact Hc. simpl.
  split; [reflexivity|]. split.
  - rewrite cache_get_eval. unfold cache_read. simpl. rewrite lookup_delete_eq. reflexivity.
  - intros key' Hk. rewrite !cache_get_eval. unfold cache_read. simpl.
    rewrite Hc, lookup_delete_ne by congruence. reflexivity.
Qed.

Lemma cache_delete_then_get_witness :
  let w := Demo.world (Demo.holding "u1" "refresh.u1.1000") Demo.with_jane Demo.no_minio in
  fst (@cache_get Demo.platform "refresh_token:u1" w) =
    Return (Some (json_str "refresh.u1.1000"))
  /\ fst (@cache_get Demo.platform "refresh_token:u1"
            (snd (cache_delete "refresh_token:u1" w))) = Return None.
Proof.
  intros w. split; [vm_compute; reflexivity|].
  destruct (@cache_delete_then_get Demo.platform "refresh_token:u1" w) as (_ & Hget & _);
    [reflexivity|].
  rewrite Hget. reflexivity.
Defined.

(** X10.  Issue, store, present: the token that [create_refresh_token] builds
    with the default lifetime, once stored under the account's key with
    [cache_set] and an expiry that SETEX takes (positive and within the
    server's range), is accepted by [validate_refresh_token] with the account
    id as the answer, as long as it verifies, the connection is alive and the
    account exists. *)
Theorem refresh_token_round_trip `{!Platform}
    (now expire : Z) (user_id token : string) (w : World) (u : User.t) :
  create_refresh_token now user_id None w = (Return token, w) ->
  jwt_decode token =
    Some (mk_Claims (Some user_id)
                    (Some (now + REFRESH_TOKEN_EXPIRE_DAYS settings * 86400))
                    (Some now) (Some "refresh"%string)) ->
  user_id <> ""%string ->
  connected (redis w) = true ->
  0 < expire <= max_expire ->
  json_loads (json_dumps (json_str token)) = Some (json_str token) ->
  json_dumps (json_str token) <> ""%string ->
  get_user_by_id user_id w = (Return u, w) ->
  token = jwt_encode (mk_Claims (Some user_id)
                        (Some (now + REFRESH_TOKEN_EXPIRE_DAYS settings * 86400))
                        (Some now) (Some "refresh"%string))
  /\ fst (validate_refresh_token token
            (snd (cache_set (refresh_token_key user_id) (json_str token) expire w))) =
       Return user_id.
Proof.
  intros Hmk Hd Hne Hc He Hj Hdne Hu.
  apply setex_accepts_range in He.
  split; [unfold create_refresh_token, bind, datetime_add, ret in Hmk; congruence|].
  rewrite (validate_refresh_token_eval token user_id _ _ Hd eq_refl eq_refl Hne).
  rewrite cache_set_connected by assumption. simpl.
  assert (Hread : cache_read
            (set_redis (mk_Redis (<[refresh_token_key user_id :=
                                       (expire, json_dumps (json_str token))]>
                                    (entries (redis w))) true) w)
            (refresh_token_key user_id) = Some (json_str token)).
  { unfold cache_read. simpl. rewrite lookup_insert_eq. simpl.
    unfold str_bool. rewrite bool_decide_eq_false_2 by exact Hdne. exact Hj. }
  rewrite Hread, bool_decide_eq_true_2 by reflexivity.
  rewrite (get_user_by_id_set_redis _ _ _ _ Hu). reflexivity.
Qed.

Lemma refresh_token_round_trip_witness :
  let w := Demo.world Demo.no_redis Demo.with_jane Demo.no_minio in
  fst (@validate_refresh_token Demo.platform "refresh.u1.1000"
         (snd (@cache_set Demo.platform (refresh_token_key "u1")
                 (json_str "refresh.u1.1000") 604800 w))) = Return "u1"%string.
Proof.
  intros w.
  apply (@refresh_token_round_trip Demo.platform 1000 604800 "u1" "refresh.u1.1000" w
           Demo.jane).
  - vm_compute; reflexivity.
  - vm_compute; reflexivity.
  - discriminate.
  - reflexivity.
  - vm_compute. split; [reflexivity|discriminate].
  - vm_compute; reflexivity.
  - discriminate.
  - vm_compute; reflexivity.
Defined.

(** ** Updating accounts *)

Section Flushing.
Context `{!Platform}.

Lemma email_taken_false (db : Database) (u : User.t) :
  keyed_by_id db -> free_for db (User.id u) (User.email u) ->
  email_taken db (User.email u) (User.id u) = false.
Proof.
  intros Hk Hfree. unfold email_taken.
  destruct (existsb _ _) eqn:He; [|reflexivity].
  apply existsb_exists in He as [u' [Hin Hu']].
  apply list_elem_of_In, elem_of_all_users in Hin as [k' Hk'].
  apply andb_true_iff in Hu' as [He Hid].
  apply bool_decide_eq_true_1 in He.
  apply negb_true_iff, bool_decide_eq_false_1 in Hid.
  destruct Hid. rewrite (Hk _ _ Hk'). exact (Hfree _ _ Hk' He).
Qed.

Lemma flush_change_dirty_user (db : Database) (u : User.t) :
  keyed_by_id db -> free_for db (User.id u) (User.email u) ->
  flush_change db (dirty_user u) = Return (with_user db (User.id u) u).
Proof.
  intros Hk Hfree. unfold flush_change. rewrite email_taken_false by assumption.
  reflexivity.
Qed.

Lemma keyed_by_id_with_user (db : Database) (u : User.t) :
  keyed_by_id db -> keyed_by_id (with_user db (User.id u) u).
Proof.
  intros Hk k v. unfold with_user. simpl.
  destruct (decide (User.id u = k)) as [<-|Hne].
  - rewrite lookup_insert_eq. congruence.
  - rewrite lookup_insert_ne by exact Hne. apply Hk.
Qed.

Lemma free_for_with_user (db : Database) (k e : string) (u : User.t) :
  free_for db k e -> free_for (with_user db k u) k e.
Proof.
  intros Hfree k' u'. unfold with_user. simpl.
  destruct (decide (k = k')) as [<-|Hne]; [reflexivity|].
  rewrite lookup_insert_ne by exact Hne. apply Hfree.
Qed.

Lemma with_user_twice (db : Database) (k : string) (u v : User.t) :
  with_user (with_user db k u) k v = with_user db k v.
Proof. unfold with_user. simpl. rewrite insert_insert_eq. reflexivity. Qed.

(** A flush of assignments to one account, each to an address that is free. *)
Lemma flush_dirty_users (l : list User.t) (db : Database) (k : string) :
  keyed_by_id db ->
  (forall v, v ∈ l -> User.id v = k /\ free_for db k (User.email v)) ->
  flush db (dirty_user <$> l) =
    Return (match last l with
            | Some v => with_user db k v
            | None => db
            end).
Proof.
  revert db. induction l as [|v l IH]; intros db Hk Hl; [reflexivity|].
  destruct (Hl v) as [Hid Hfree]; [left|].
  rewrite fmap_cons. cbn [flush].
  rewrite <- Hid in Hfree. rewrite flush_change_dirty_user by assumption.
  rewrite Hid. rewrite IH.
  - destruct l as [|v' l']; [reflexivity|].
    change (last (v :: v' :: l')) with (last (v' :: l')).
    destruct (last (v' :: l')) eqn:Hlast; [apply f_equal, with_user_twice|].
    apply last_None in Hlast. discriminate Hlast.
  - rewrite <- Hid. apply keyed_by_id_with_user. exact Hk.
  - intros v' Hv'. destruct (Hl v') as [Hid' Hfree']; [right; exact Hv'|].
    split; [exact Hid'|]. apply free_for_with_user. exact Hfree'.
Qed.

End Flushing.

Ltac crunch_update :=
  simpl;
  repeat (first
    [ destruct (email_taken _ _ _)
    | match goal with
      | |- context [match (?m !! ?k) with _ => _ end] => destruct (m !! k)
      end ]; simpl);
  try reflexivity.

Section UpdateUser.
Context `{!Platform}.

(** [update_user] on a stored account, with nothing pending in the session. *)
Lemma update_user_eval (user_id : string) (email : option string)
    (role : option UserRole) (is_active : option bool) (w : World) (u : User.t) :
  pending (session w) = [] ->
  users (database (session w)) !! user_id = Some u ->
  update_user user_id email role is_active w =
    if changes_email u email
       && bool_decide (is_Some (head (filter (fun v => User.email v = default ""%string email)
                                             (all_users (database (session w))))))
    then (Raise email_in_use, w)
    else
      let l := assignments u email role is_active in
      let db := database (session w) in
      match flush db (dirty_user <$> l) with
      | Return db' =>
          match users db' !! User.id u with
          | Some u' => (Return u', set_session (mk_AsyncSession db' []) w)
          | None =>
              (Raise (Exception "InvalidRequestError"),
               set_session (mk_AsyncSession db' []) w)
          end
      | Raise e => (Raise e, set_session (mk_AsyncSession db (dirty_user <$> l)) w)
      end.
Proof.
  destruct w as [r [db pend] m resp]. simpl. intros -> Hrow.
  unfold update_user, get_user_by_id, session_get_user.
  unfold bind at 1. unfold bind at 1. simpl. rewrite Hrow. simpl.
  unfold assignments, changes_email.
  destruct email as [e|]; simpl.
  - destruct (str_bool e); simpl.
    + destruct (bool_decide (e = User.email u)); simpl.
      * destruct role, is_active; simpl;
          unfold bind, assign_user, session_mark, session_commit, session_refresh_user, ret;
          crunch_update.
      * unfold bind at 1. unfold bind at 1. unfold select_user_where_email, first. simpl.
        destruct (head _) as [v|]; simpl; [reflexivity|].
        destruct role, is_active; simpl;
          unfold bind, assign_user, session_mark, session_commit, session_refresh_user, ret;
          crunch_update.
    + destruct role, is_active; simpl;
        unfold bind, assign_user, session_mark, session_commit, session_refresh_user, ret;
        crunch_update.
  - destruct role, is_active; simpl;
      unfold bind, assign_user, session_mark, session_commit, session_refresh_user, ret;
      crunch_update.
Qed.

End UpdateUser.

Section UpdateUserFacts.
Context `{!Platform}.

Lemma assignments_members (u : User.t) (email : option string)
    (role : option UserRole) (is_active : option bool) (v : User.t) :
  v ∈ assignments u email role is_active ->
  User.id v = User.id u
  /\ (User.email v = User.email u
      \/ exists e, email = Some e /\ e <> ""%string /\ User.email v = e).
Proof.
  unfold assignments, changes_email.
  destruct email as [e|]; simpl.
  - unfold str_bool. destruct (bool_decide_reflect (e = ""%string)) as [He|He]; simpl.
    + destruct role, is_active; simpl; intros Hin;
        repeat (apply elem_of_cons in Hin as [->|Hin]); try (by inversion Hin);
        split; auto.
    + destruct (bool_decide (e = User.email u)); simpl;
        destruct role, is_active; simpl; intros Hin;
        repeat (apply elem_of_cons in Hin as [->|Hin]); try (by inversion Hin);
        split; eauto.
  - destruct role, is_active; simpl; intros Hin;
      repeat (apply elem_of_cons in Hin as [->|Hin]); try (by inversion Hin);
      split; auto.
Qed.

Lemma assignments_last (u : User.t) (email : option string)
    (role : option UserRole) (is_active : option bool) :
  last (assignments u email role is_active) = Some (updated_user u email role is_active)
  \/ (assignments u email role is_active = []
      /\ updated_user u email role is_active = u).
Proof.
  unfold assignments, changes_email, updated_user.
  destruct u as [i em ph ro ac]. simpl.
  destruct email as [e|]; simpl.
  - destruct (str_bool e); simpl.
    + destruct (bool_decide_reflect (e = em)) as [->|Hne]; simpl;
        destruct role, is_active; simpl; auto.
    + destruct role, is_active; simpl; auto.
  - destruct role, is_active; simpl; auto.
Qed.

Lemma with_user_same (db : Database) (k : string) (u : User.t) :
  users db !! k = Some u -> with_user db k u = db.
Proof.
  intros Hu. unfold with_user. rewrite insert_id by exact Hu. destruct db; reflexivity.
Qed.

Lemma free_for_own (db : Database) (k : string) (u : User.t) :
  emails_unique db -> users db !! k = Some u -> free_for db k (User.email u).
Proof. intros Huniq Hu k' u' Hk' He. exact (Huniq _ _ _ _ Hk' Hu He). Qed.

End UpdateUserFacts.

Section UpdateUserReturns.
Context `{!Platform}.

Lemma update_user_returns (user_id : string) (email : option string)
    (role : option UserRole) (is_active : option bool) (w : World) (u : User.t) :
  pending (session w) = [] ->
  keyed_by_id (database (session w)) ->
  emails_unique (database (session w)) ->
  users (database (session w)) !! user_id = Some u ->
  (forall e, email = Some e -> e <> ""%string ->
             free_for (database (session w)) user_id e) ->
  update_user user_id email role is_active w =
    (Return (updated_user u email role is_active),
     set_session (mk_AsyncSession
                    (with_user (database (session w)) user_id
                               (updated_user u email role is_active)) []) w).
Proof.
  intros Hp Hk Huniq Hrow Hfree.
  assert (Hid : User.id u = user_id) by exact (Hk _ _ Hrow).
  rewrite (update_user_eval _ _ _ _ _ u Hp Hrow).
  assert (Hnc : changes_email u email
                && bool_decide (is_Some (head (filter
                     (fun v => User.email v = default ""%string email)
                     (all_users (database (session w)))))) = false).
  { destruct (changes_email u email) eqn:Hch; [|reflexivity]. simpl.
    apply bool_decide_eq_false_2. intros [v Hv].
    unfold changes_email in Hch. destruct email as [e|]; [|discriminate].
    apply andb_true_iff in Hch as [Hne Hch].
    apply negb_true_iff, bool_decide_eq_false_1 in Hch.
    unfold str_bool in Hne. apply negb_true_iff, bool_decide_eq_false_1 in Hne.
    simpl in Hv. apply head_filter_Some in Hv as [He Hin].
    apply elem_of_all_users in Hin as [k' Hk'].
    assert (k' = user_id) by exact (Hfree e eq_refl Hne _ _ Hk' He). subst k'.
    rewrite Hrow in Hk'. injection Hk' as <-. congruence. }
  rewrite Hnc. cbv zeta.
  rewrite (flush_dirty_users _ _ user_id Hk).
  - destruct (assignments_last u email role is_active) as [Hl|[Hl Hsame]].
    + rewrite Hl. simpl. rewrite Hid, lookup_insert_eq. reflexivity.
    + rewrite Hl. simpl. rewrite Hid, Hrow. rewrite Hsame.
      rewrite with_user_same by exact Hrow.
      destruct w as [r [db pend] m resp]. simpl in *. subst pend. reflexivity.
  - intros v Hv. apply assignments_members in Hv as [Hvid Hve].
    split; [congruence|].
    destruct Hve as [->|(e & -> & Hne & ->)].
    + apply free_for_own; assumption.
    + apply Hfree; [reflexivity|exact Hne].
Qed.

End UpdateUserReturns.

(** X11.  Partial update.  On a database whose accounts are stored under their
    ids with pairwise distinct addresses, [update_user] on a stored account,
    given no address or one that is free, returns the account with exactly
    the supplied fields replaced (an empty address counts as not supplied) and
    stores it; id and password hash are kept, other accounts, profiles and
    applications are untouched, and nothing is left pending. *)
Theorem update_user_partial_update `{!Platform}
    (user_id : string) (email : option string) (role : option UserRole)
    (is_active : option bool) (w : World) (u : User.t) :
  pending (session w) = [] ->
  keyed_by_id (database (session w)) ->
  emails_unique (database (session w)) ->
  users (database (session w)) !! user_id = Some u ->
  (forall e, email = Some e -> e <> ""%string ->
             free_for (database (session w)) user_id e) ->
  let u' := updated_user u email role is_active in
  update_user user_id email role is_active w =
    (Return u',
     set_session (mk_AsyncSession (with_user (database (session w)) user_id u') []) w)
  /\ User.id u' = User.id u
  /\ User.password_hash u' = User.password_hash u
  /\ (role = None -> User.role u' = User.role u)
  /\ (is_active = None -> User.is_active u' = User.is_active u)
  /\ (email = None -> User.email u' = User.email u).
Proof.
  intros Hp Hk Huniq Hrow Hfree u'.
  split; [|repeat split; intros ->; reflexivity].
  apply update_user_returns; assumption.
Qed.

Ltac lookups :=
  repeat match goal with
  | H : <[_ := _]> _ !! _ = Some _ |- _ =>
      apply lookup_insert_Some in H as [[<- <-]|[? H]]
  | H : {[_ := _]} !! _ = Some _ |- _ =>
      apply lookup_singleton_Some in H as [<- <-]
  end.

Lemma two_accounts_keyed : keyed_by_id Fixtures.two_accounts.
Proof. intros k u Hk. simpl in Hk. lookups; reflexivity. Qed.

Lemma two_accounts_unique : emails_unique Fixtures.two_accounts.
Proof.
  intros k1 k2 u1 u2 H1 H2 He. simpl in H1, H2.
  lookups; try reflexivity; discriminate He.
Qed.

Lemma update_user_partial_update_witness :
  let w := Demo.world Demo.no_redis Fixtures.two_accounts Demo.no_minio in
  fst (@update_user Demo.platform "u1" (Some "jane@x.com"%string) None (Some false) w) =
    Return (User.mk "u1" "jane@x.com" "bcrypt:longenough1" BUYER false).
Proof.
  intros w.
  destruct (@update_user_partial_update Demo.platform "u1" (Some "jane@x.com"%string) None
              (Some false) w Demo.jane) as [Hrun _].
  - reflexivity.
  - exact two_accounts_keyed.
  - exact two_accounts_unique.
  - reflexivity.
  - intros e [= <-] _ k' u' Hk' He. simpl in Hk'. lookups; try reflexivity; discriminate He.
  - rewrite Hrun. reflexivity.
Defined.

(** X12.  Failures of [update_user].  On such a database, with nothing pending,
    [update_user] fails in two ways only: "User not found" when no account is
    stored under the id, and "Email already in use" when the new address,
    different from the account's own, belongs to another account.  A
    constraint violation never escapes, and a failed call leaves the world as
    it was. *)
Theorem update_user_failures `{!Platform}
    (user_id : string) (email : option string) (role : option UserRole)
    (is_active : option bool) (w : World) (e : exn) :
  pending (session w) = [] ->
  keyed_by_id (database (session w)) ->
  emails_unique (database (session w)) ->
  fst (update_user user_id email role is_active w) = Raise e ->
  snd (update_user user_id email role is_active w) = w
  /\ ((e = user_not_found /\ users (database (session w)) !! user_id = None)
      \/ (e = email_in_use
          /\ exists new k other,
               email = Some new /\ new <> ""%string
               /\ users (database (session w)) !! k = Some other
               /\ User.email other = new /\ k <> user_id)).
Proof.
  intros Hp Hk Huniq.
  destruct (users (database (session w)) !! user_id) as [u|] eqn:Hrow.
  - destruct (changes_email u email
              && bool_decide (is_Some (head (filter
                   (fun v => User.email v = default ""%string email)
                   (all_users (database (session w))))))) eqn:Hc.
    + rewrite (update_user_eval _ _ _ _ _ u Hp Hrow), Hc. simpl.
      intros [= <-]. split; [reflexivity|]. right. split; [reflexivity|].
      apply andb_true_iff in Hc as [Hch Hhead].
      apply bool_decide_eq_true_1 in Hhead as [v Hv].
      unfold changes_email in Hch. destruct email as [new|]; [|discriminate].
      apply andb_true_iff in Hch as [Hne Hch].
      apply negb_true_iff, bool_decide_eq_false_1 in Hch.
      unfold str_bool in Hne. apply negb_true_iff, bool_decide_eq_false_1 in Hne.
      simpl in Hv. apply head_filter_Some in Hv as [He Hin].
      apply elem_of_all_users in Hin as [k Hkv].
      exists new, k, v. repeat split; try assumption.
      intros ->. rewrite Hrow in Hkv. injection Hkv as <-. congruence.
    + rewrite (update_user_returns _ _ _ _ _ u Hp Hk Huniq Hrow); [discriminate|].
      intros new -> Hne k' u' Hk' He.
      destruct (decide (k' = user_id)) as [Heq|Hneq]; [exact Heq|exfalso].
      apply andb_false_iff in Hc as [Hch|Hhead].
      * unfold changes_email, str_bool in Hch.
        rewrite bool_decide_eq_false_2 in Hch by exact Hne. simpl in Hch.
        apply negb_false_iff, bool_decide_eq_true_1 in Hch.
        apply Hneq. apply (Huniq _ _ _ _ Hk' Hrow). congruence.
      * apply bool_decide_eq_false_1 in Hhead. apply Hhead. simpl.
        destruct (head _) as [v|] eqn:Hh; [eauto|].
        rewrite head_filter_None in Hh. destruct (Hh u'); [|exact He].
        apply elem_of_all_users. eauto.
  - assert (Hrun : update_user user_id email role is_active w = (Raise user_not_found, w)).
    { unfold update_user, get_user_by_id, session_get_user.
      unfold bind at 1. unfold bind at 1. rewrite Hp. simpl. rewrite Hrow. reflexivity. }
    rewrite Hrun. simpl.
    intros [= <-]. split; [reflexivity|]. left. split; reflexivity.
Qed.

Lemma update_user_failures_witness :
  let w := Demo.world Demo.no_redis Fixtures.two_accounts Demo.no_minio in
  @update_user Demo.platform "u1" (Some "j@x.com"%string) None None w =
    (Raise email_in_use, w).
Proof.
  intros w.
  assert (Hrun : fst (@update_user Demo.platform "u1" (Some "j@x.com"%string) None None w) =
                 Raise email_in_use) by (vm_compute; reflexivity).
  destruct (@update_user_failures Demo.platform "u1" (Some "j@x.com"%string) None None w
              email_in_use eq_refl two_accounts_keyed two_accounts_unique Hrun) as [Hw _].
  rewrite (surjective_pairing (@update_user Demo.platform "u1" (Some "j@x.com"%string)
                                 None None w)).
  rewrite Hrun, Hw. reflexivity.
Defined.

(** ** Deactivating accounts *)

Section SoftDelete.
Context `{!Platform}.

Lemma soft_delete_user_eval (user_id : string) (w : World) (u : User.t) :
  pending (session w) = [] ->
  keyed_by_id (database (session w)) ->
  emails_unique (database (session w)) ->
  users (database (session w)) !! user_id = Some u ->
  soft_delete_user user_id w =
    (Return tt,
     set_session (mk_AsyncSession
                    (with_user (database (session w)) user_id
                               (User.set_is_active false u)) []) w).
Proof.
  intros Hp Hk Huniq Hrow.
  assert (Hid : User.id u = user_id) by exact (Hk _ _ Hrow).
  assert (Hflush : flush_change (database (session w))
                     (dirty_user (User.set_is_active false u)) =
                   Return (with_user (database (session w)) user_id
                                     (User.set_is_active false u))).
  { rewrite flush_change_dirty_user; [simpl; rewrite Hid; reflexivity|exact Hk|].
    simpl. rewrite Hid. apply free_for_own; assumption. }
  destruct w as [r [db pend] m resp]. simpl in *. subst pend.
  unfold soft_delete_user, get_user_by_id, session_get_user, assign_user, session_mark,
    session_commit, bind, ret. simpl. rewrite Hrow. simpl.
  unfold flush_change in Hflush. simpl in Hflush. rewrite Hflush. reflexivity.
Qed.

Lemma emails_unique_with_user (db : Database) (k : string) (u v : User.t) :
  emails_unique db -> users db !! k = Some u -> User.email v = User.email u ->
  emails_unique (with_user db k v).
Proof.
  intros Huniq Hu Hv k1 k2 u1 u2. unfold with_user. simpl.
  destruct (decide (k = k1)) as [<-|H1], (decide (k = k2)) as [<-|H2];
    rewrite ?lookup_insert_eq, ?lookup_insert_ne by assumption.
  - reflexivity.
  - intros [= <-] H2' He. apply (Huniq _ _ _ _ Hu H2'). congruence.
  - intros H1' [= <-] He. apply (Huniq _ _ _ _ H1' Hu). congruence.
  - apply Huniq.
Qed.

Lemma head_filter_email (db : Database) (k : string) (u : User.t) :
  emails_unique db -> users db !! k = Some u ->
  head (filter (fun v => User.email v = User.email u) (all_users db)) = Some u.
Proof.
  intros Huniq Hu.
  destruct (head _) as [v|] eqn:Hh.
  - apply head_filter_Some in Hh as [He Hin].
    apply elem_of_all_users in Hin as [k' Hk'].
    assert (k' = k) by exact (Huniq _ _ _ _ Hk' Hu He). subst k'. congruence.
  - rewrite head_filter_None in Hh. destruct (Hh u); [|reflexivity].
    apply elem_of_all_users. eauto.
Qed.

(** [validate_refresh_token], check by check. *)
Lemma validate_refresh_token_checks (token : string) (w : World) :
  validate_refresh_token token w =
    match jwt_decode token with
    | None =>
        (Raise (BaseCustomException 401 "Token expired" "The refresh token has expired."), w)
    | Some payload =>
        if negb (bool_decide (type payload = Some "refresh"%string))
        then (Raise (BaseCustomException 401 "Invalid token type"
                       "The refresh token is invalid."), w)
        else
          match sub payload with
          | None =>
              (Raise (BaseCustomException 401 "Invalid token claims"
                        "The refresh token claims are invalid."), w)
          | Some user_id =>
              if negb (str_bool user_id)
              then (Raise (BaseCustomException 401 "Invalid token claims"
                             "The refresh token claims are invalid."), w)
              else if negb (bool_decide (cache_read w (refresh_token_key user_id)
                                         = Some (json_str token)))
              then (Raise token_revoked, w)
              else match get_user_by_id user_id w with
                   | (Return _, _) => (Return user_id, w)
                   | (Raise e, _) => (Raise e, w)
                   end
          end
    end.
Proof.
  unfold validate_refresh_token, try_except.
  destruct (jwt_decode token) as [payload|]; [|reflexivity].
  destruct (negb (bool_decide (type payload = Some "refresh"%string))); [reflexivity|].
  destruct (sub payload) as [user_id|]; [|reflexivity].
  destruct (negb (str_bool user_id)); [reflexivity|].
  unfold bind at 1. rewrite cache_get_eval.
  destruct (negb (bool_decide _)); [reflexivity|].
  unfold bind.
  destruct (get_user_by_id_cases user_id w) as [[u Hu]|Hu]; rewrite Hu; reflexivity.
Qed.

End SoftDelete.

(** X13.  [soft_delete_user] keeps the row: on a database whose accounts are
    stored under their ids with distinct addresses, it returns, the account is
    stored with [is_active] false and every other field as before, and other
    accounts, profiles and applications are untouched.  For an unknown id it
    fails with "User not found" and changes nothing. *)
Theorem soft_delete_user_deactivates `{!Platform} (user_id : string) (w : World) :
  pending (session w) = [] ->
  keyed_by_id (database (session w)) ->
  emails_unique (database (session w)) ->
  match users (database (session w)) !! user_id with
  | Some u =>
      let w' := snd (soft_delete_user user_id w) in
      fst (soft_delete_user user_id w) = Return tt
      /\ users (database (session w')) !! user_id =
           Some (User.mk (User.id u) (User.email u) (User.password_hash u) (User.role u) false)
      /\ (forall k, k <> user_id ->
            users (database (session w')) !! k = users (database (session w)) !! k)
      /\ profiles (database (session w')) = profiles (database (session w))
      /\ seller_applications (database (session w')) =
           seller_applications (database (session w))
      /\ pending (session w') = []
  | None => soft_delete_user user_id w = (Raise user_not_found, w)
  end.
Proof.
  intros Hp Hk Huniq.
  destruct (users (database (session w)) !! user_id) as [u|] eqn:Hrow.
  - rewrite (soft_delete_user_eval _ _ u Hp Hk Huniq Hrow). simpl.
    split; [reflexivity|]. split; [apply lookup_insert_eq|].
    split; [intros k Hne; apply lookup_insert_ne; congruence|].
    repeat split.
  - unfold soft_delete_user, get_user_by_id, session_get_user.
    unfold bind at 1. unfold bind at 1. rewrite Hp. simpl. rewrite Hrow. reflexivity.
Qed.

Lemma soft_delete_user_deactivates_witness :
  let w := Demo.world Demo.no_redis Fixtures.two_accounts Demo.no_minio in
  let w' := snd (@soft_delete_user Demo.platform "u1" w) in
  (User.is_active <$> users (database (session w')) !! "u1"%string) = Some false
  /\ users (database (session w')) !! "u2"%string = Some Fixtures.john.
Proof.
  intros w w'.
  assert (Hthm := @soft_delete_user_deactivates Demo.platform "u1" w eq_refl
                    two_accounts_keyed two_accounts_unique).
  change (users (database (session w)) !! "u1"%string) with (Some Demo.jane) in Hthm.
  destruct Hthm as (_ & Hrow & Hothers & _).
  fold w' in Hrow, Hothers. split.
  - rewrite Hrow. reflexivity.
  - rewrite Hothers by discriminate. reflexivity.
Defined.

(** X14.  A deactivated account can no longer log in or pass the access guard:
    after [soft_delete_user], [authenticate] with the account's address fails
    with "Inactive account" for every password, and [get_current_user] refuses
    every token whose subject is the account. *)
Theorem soft_delete_user_locks_out `{!Platform}
    (user_id : string) (w : World) (u : User.t) :
  pending (session w) = [] ->
  keyed_by_id (database (session w)) ->
  emails_unique (database (session w)) ->
  users (database (session w)) !! user_id = Some u ->
  let w' := snd (soft_delete_user user_id w) in
  (forall password,
     authenticate (User.email u) password w' = (Raise inactive_account, w'))
  /\ (forall token payload,
        jwt_decode token = Some payload -> sub payload = Some user_id ->
        get_current_user token w' = (Raise credentials_exception, w')).
Proof.
  intros Hp Hk Huniq Hrow w'. unfold w'.
  rewrite (soft_delete_user_eval _ _ u Hp Hk Huniq Hrow). simpl.
  set (v := User.set_is_active false u).
  assert (Hv : users (with_user (database (session w)) user_id v) !! user_id = Some v)
    by apply lookup_insert_eq.
  split.
  - intros password. rewrite authenticate_eval. simpl.
    change (User.email u) with (User.email v).
    rewrite (head_filter_email _ user_id v);
      [reflexivity|apply (emails_unique_with_user _ _ u); auto|exact Hv].
  - intros token payload Hd Hs. rewrite get_current_user_eval, Hd, Hs.
    unfold get_user_by_id, bind, session_get_user. simpl.
    unfold with_user in Hv. simpl in Hv. rewrite Hv. reflexivity.
Qed.

Lemma soft_delete_user_locks_out_witness :
  let w := Demo.world Demo.no_redis Fixtures.two_accounts Demo.no_minio in
  let w' := snd (@soft_delete_user Demo.platform "u1" w) in
  @authenticate Demo.platform "a@x.com" "longenough1" w = (Return Demo.jane, w)
  /\ @authenticate Demo.platform "a@x.com" "longenough1" w' = (Raise inactive_account, w')
  /\ @get_current_user Demo.platform "access.u1.1000" w' = (Raise credentials_exception, w').
Proof.
  intros w w'.
  destruct (@soft_delete_user_locks_out Demo.platform "u1" w Demo.jane eq_refl
              two_accounts_keyed two_accounts_unique eq_refl) as [Hlogin Hguard].
  split; [vm_compute; reflexivity|]. split.
  - apply (Hlogin "longenough1"%string).
  - apply (Hguard "access.u1.1000"%string (Demo.issued "access" "u1" 1000 1800));
      vm_compute; reflexivity.
Defined.

(** X15.  Deactivation does not revoke a refresh token: [validate_refresh_token]
    looks the account up without looking at [is_active], so after
    [soft_delete_user] every token gets the answer it got before. *)
Theorem soft_delete_user_keeps_refresh_token `{!Platform}
    (user_id token : string) (w : World) (u : User.t) :
  pending (session w) = [] ->
  keyed_by_id (database (session w)) ->
  emails_unique (database (session w)) ->
  users (database (session w)) !! user_id = Some u ->
  fst (validate_refresh_token token (snd (soft_delete_user user_id w))) =
    fst (validate_refresh_token token w).
Proof.
  intros Hp Hk Huniq Hrow.
  rewrite (soft_delete_user_eval _ _ u Hp Hk Huniq Hrow). simpl.
  rewrite !validate_refresh_token_checks.
  destruct (jwt_decode token) as [payload|]; [|reflexivity].
  destruct (negb (bool_decide (type payload = Some "refresh"%string))); [reflexivity|].
  destruct (sub payload) as [uid|]; [|reflexivity].
  destruct (negb (str_bool uid)); [reflexivity|].
  change (cache_read (set_session _ w) (refresh_token_key uid))
    with (cache_read w (refresh_token_key uid)).
  destruct (negb (bool_decide _)); [reflexivity|].
  unfold get_user_by_id, bind, session_get_user, ret, raise. simpl. rewrite Hp. simpl.
  destruct (decide (uid = user_id)) as [->|Hne].
  - rewrite lookup_insert_eq, Hrow. reflexivity.
  - rewrite lookup_insert_ne by congruence.
    destruct (users (database (session w)) !! uid); reflexivity.
Qed.

Lemma soft_delete_user_keeps_refresh_token_witness :
  let token := "refresh.u1.1000"%string in
  let w := Demo.world (Demo.holding "u1" token) Fixtures.two_accounts Demo.no_minio in
  fst (@validate_refresh_token Demo.platform token (snd (@soft_delete_user Demo.platform "u1" w)))
    = Return "u1"%string.
Proof.
  intros token w.
  rewrite (@soft_delete_user_keeps_refresh_token Demo.platform "u1" token w Demo.jane eq_refl
             two_accounts_keyed two_accounts_unique eq_refl).
  vm_compute; reflexivity.
Defined.

(** ** Stored objects *)

Section Objects.
Context `{!Platform}.

Lemma delete_file_eval (file_name : string) (w : World) :
  delete_file file_name w =
    if blank file_name then (Raise (ValueError EmptyString), w)
    else if reachable (minio w)
    then match objects (minio w) !! file_name with
         | Some _ =>
             (Return tt,
              set_minio (mk_Minio (base.delete file_name (objects (minio w))) true) w)
         | None =>
             (Raise (BaseCustomException 404 "File not found"
                       ("File " +:+ file_name +:+ " does not exist")), w)
         end
    else (Raise (Exception "MaxRetryError"), w).
Proof.
  unfold delete_file, try_except, bind, client_stat_object, client_remove_object.
  destruct (blank file_name) eqn:Hb; [reflexivity|].
  destruct (reachable (minio w)) eqn:Hr; [|reflexivity].
  destruct (objects (minio w) !! file_name); [|reflexivity].
  rewrite Hr. reflexivity.
Qed.

Lemma has_slash_app (s t : string) :
  has_slash (s +:+ t) = has_slash s || has_slash t.
Proof.
  induction s as [|c s IH]; [reflexivity|].
  simpl. rewrite IH. apply orb_assoc.
Qed.

Lemma last_segment_no_slash (s acc : string) :
  has_slash acc = false -> has_slash (last_segment acc s) = false.
Proof.
  revert acc. induction s as [|c s IH]; intros acc Hacc; [exact Hacc|].
  simpl. destruct (Ascii.eqb c "/") eqn:Hc.
  - apply IH. reflexivity.
  - apply IH. rewrite has_slash_app, Hacc. simpl. rewrite Hc. reflexivity.
Qed.

Lemma replace_from_no_slash (old new s : string) (skip : nat) :
  has_slash new = false -> has_slash s = false ->
  has_slash (replace_from old new skip s) = false.
Proof.
  intros Hnew. revert skip. induction s as [|c s IH]; intros skip Hs; [reflexivity|].
  simpl in Hs. apply orb_false_iff in Hs as [Hc Hs].
  cbn [replace_from]. destruct skip as [|k]; [|apply IH; exact Hs].
  destruct (String.prefix old (String c s)).
  - rewrite has_slash_app, Hnew. apply IH. exact Hs.
  - simpl. rewrite Hc. apply IH. exact Hs.
Qed.

End Objects.

(** X16.  [delete_file] on a reachable store, given a name that is not blank
    and has no path segment "." or "..", removes the named object and no
    other; for such a name that is not stored it fails with the 404 "File not
    found" naming the file and changes nothing.  When the store cannot be
    reached the call raises an error that is no HTTP error of the application,
    not a 404.  A name that is empty or all white space is refused by the
    client with [ValueError] before anything is sent, which the [except]
    clause does not catch. *)
Theorem delete_file_removes_one (file_name : string) (w : World) :
  (blank file_name = false ->
   dot_segment file_name = false ->
   reachable (minio w) = true ->
   match objects (minio w) !! file_name with
   | Some _ =>
       fst (delete_file file_name w) = Return tt
       /\ objects (minio (snd (delete_file file_name w))) !! file_name = None
       /\ (forall other, other <> file_name ->
             objects (minio (snd (delete_file file_name w))) !! other =
             objects (minio w) !! other)
   | None =>
       delete_file file_name w =
         (Raise (BaseCustomException 404 "File not found"
                   ("File " +:+ file_name +:+ " does not exist")), w)
   end)
  /\ (reachable (minio w) = false ->
      exists e, delete_file file_name w = (Raise e, w) /\ status_code e = None)
  /\ (blank file_name = true ->
      delete_file file_name w = (Raise (ValueError EmptyString), w)).
Proof.
  rewrite delete_file_eval. split; [|split].
  - intros -> _ ->. destruct (objects (minio w) !! file_name) eqn:Ho; [|reflexivity].
    simpl. split; [reflexivity|]. split; [apply lookup_delete_eq|].
    intros other Hne. apply lookup_delete_ne. congruence.
  - intros ->. destruct (blank file_name); eexists; split; reflexivity.
  - intros ->. reflexivity.
Qed.

Lemma delete_file_removes_one_witness :
  let w := Demo.world Demo.no_redis Demo.with_jane Demo.old_picture in
  fst (delete_file "old.png" w) = Return tt
  /\ objects (minio (snd (delete_file "old.png" w))) !! "old.png"%string = None.
Proof.
  intros w.
  destruct (delete_file_removes_one "old.png" w) as [Hlive _].
  specialize (Hlive eq_refl eq_refl eq_refl).
  change (objects (minio w) !! "old.png"%string)
    with (Some ([Byte.x89; Byte.x50; Byte.x4e; Byte.x47], "image/png"%string)) in Hlive.
  destruct Hlive as (Hret & Hgone & _). split; assumption.
Defined.

(** X17.  Store, then delete: when [upload_image] accepts a payload and the
    generated name is new to the bucket, [delete_file] on the returned name
    succeeds and the bucket holds exactly what it held before the upload. *)
Theorem upload_image_then_delete_file `{!Platform}
    (contents : list Byte.byte) (uuid_hex : string) (w : World)
    (mime name : string) (w1 : World) :
  upload_image contents uuid_hex w = (Return (mime, name), w1) ->
  objects (minio w) !! name = None ->
  fst (delete_file name w1) = Return tt
  /\ objects (minio (snd (delete_file name w1))) = objects (minio w)
  /\ objects (minio w1) !! name = Some (contents, mime).
Proof.
  rewrite upload_image_eval.
  destruct (first_rejecting_gate contents) as [g|]; [destruct g; discriminate|].
  destruct (reachable (minio w)) eqn:Hr; [|discriminate].
  intros [= <- <- <-] Hfresh.
  rewrite delete_file_eval, stored_name_not_blank. simpl.
  rewrite lookup_insert_eq. simpl.
  split; [reflexivity|]. split; [|reflexivity].
  apply delete_insert_id. exact Hfresh.
Qed.

Lemma upload_image_then_delete_file_witness :
  let png := [Byte.x89; Byte.x50; Byte.x4e; Byte.x47] in
  let w := Demo.world Demo.no_redis Demo.with_jane Demo.old_picture in
  let w1 := snd (@upload_image Demo.platform png "abc" w) in
  fst (delete_file "abc.png" w1) = Return tt
  /\ objects (minio (snd (delete_file "abc.png" w1))) = objects (minio w).
Proof.
  intros png w w1.
  destruct (@upload_image_then_delete_file Demo.platform png "abc" w "image/png" "abc.png" w1)
    as (Hret & Hsame & _).
  - vm_compute; reflexivity.
  - reflexivity.
  - split; assumption.
Defined.

(** X18.  The name under which [upload_image] stores a payload is the drawn
    identifier, a dot, and an extension cut from the sniffed MIME type; the
    extension never holds a slash, so a name holds one only if the identifier
    does.  A payload sniffed as image/jpeg gets the extension jpg. *)
Theorem upload_image_object_name `{!Platform}
    (contents : list Byte.byte) (uuid_hex : string) (w w1 : World) (mime name : string) :
  upload_image contents uuid_hex w = (Return (mime, name), w1) ->
  mime = magic_from_buffer contents
  /\ (exists ext, name = uuid_hex +:+ "." +:+ ext /\ has_slash ext = false)
  /\ has_slash name = has_slash uuid_hex
  /\ (mime = "image/jpeg"%string -> name = uuid_hex +:+ ".jpg")
  /\ (mime = "image/png"%string -> name = uuid_hex +:+ ".png").
Proof.
  rewrite upload_image_eval.
  destruct (first_rejecting_gate contents) as [g|]; [destruct g; discriminate|].
  destruct (reachable (minio w)); [|discriminate].
  intros [= <- <- _]. unfold stored_name, replace.
  assert (Hext : has_slash (replace_from "jpeg" "jpg" 0
                              (last_segment "" (magic_from_buffer contents))) = false).
  { apply replace_from_no_slash; [reflexivity|].
    apply last_segment_no_slash. reflexivity. }
  split; [reflexivity|]. split; [eauto|]. split; [|split].
  - rewrite !has_slash_app, Hext. simpl. rewrite !orb_false_r. reflexivity.
  - intros ->. reflexivity.
  - intros ->. reflexivity.
Qed.

Lemma upload_image_object_name_witness :
  let jpeg := [Byte.xff; Byte.xd8; Byte.xff; Byte.xe0] in
  let w := Demo.world Demo.no_redis Demo.with_jane Demo.no_minio in
  fst (@upload_image Demo.platform jpeg "0f3a" w) = Return ("image/jpeg"%string, "0f3a.jpg"%string)
  /\ has_slash "0f3a.jpg" = false.
Proof.
  intros jpeg w.
  assert (Hrun : @upload_image Demo.platform jpeg "0f3a" w =
                 (Return ("image/jpeg"%string, "0f3a.jpg"%string),
                  snd (@upload_image Demo.platform jpeg "0f3a" w)))
    by (vm_compute; reflexivity).
  split; [rewrite Hrun; reflexivity|].
  destruct (@upload_image_object_name Demo.platform jpeg "0f3a" w _ _ _ Hrun)
    as (_ & _ & Hslash & _).
  rewrite Hslash. reflexivity.
Defined.

(** ** Profile updates *)

Section ProfileUpdates.
Context `{!Platform}.

Lemma foldl_setattr_model_dump (p : Profile.t) (u : ProfileUpdate.t) :
  foldl Profile_setattr p (model_dump u) = updated_profile p u.
Proof.
  destruct p as [pu ps pf pp pc pst pco pfn pm], u as [f ph c s co].
  destruct f, ph, c, s, co; reflexivity.
Qed.

Lemma update_profile_eval (profile_update : ProfileUpdate.t) (user_id : string) (w : World) :
  pending (session w) = [] ->
  update_profile profile_update user_id w =
    match head (filter (fun p => Profile.user_id p = Some user_id)
                       (all_profiles (database (session w)))) with
    | None =>
        (Raise (TypeError
                  "BaseCustomException.__init__() got an unexpected keyword argument 'detail'"),
         w)
    | Some profile =>
        if bool_decide (model_dump profile_update = [])
        then
          (Raise (TypeError
                    "BaseCustomException.__init__() got an unexpected keyword argument 'detail'"),
           w)
        else
          (Raise (TypeError
                    "BaseModel.__init__() takes 1 positional argument but 2 were given"),
           set_session
             (mk_AsyncSession
                (with_profile (database (session w)) user_id
                              (updated_profile profile profile_update)) []) w)
    end.
Proof.
  destruct w as [r [db pend] m resp]. simpl. intros ->.
  unfold update_profile.
  unfold bind at 1. unfold select_profile_where_user_id, first. simpl.
  destruct (head _) as [profile|] eqn:Hh; [|reflexivity].
  destruct (bool_decide (model_dump profile_update = [])); [reflexivity|].
  apply head_filter_Some in Hh as [Hid _].
  rewrite foldl_setattr_model_dump.
  unfold bind, session_mark, session_commit, session_refresh_profile. simpl.
  rewrite Hid. simpl. rewrite lookup_insert_eq. reflexivity.
Qed.

End ProfileUpdates.

(** X19.  [update_profile] never returns: each of its three exits builds an
    object with arguments the constructor does not accept, which raises
    [TypeError].  Without a profile, or with no field carrying a value, the
    world is left as it was.  With a stored profile and at least one field,
    the profile is committed before the exception: the supplied fields are
    replaced, the other fields, the slug and the picture are kept. *)
Theorem update_profile_outcomes `{!Platform}
    (profile_update : ProfileUpdate.t) (user_id : string) (w : World) :
  pending (session w) = [] ->
  (exists detail, fst (update_profile profile_update user_id w) = Raise (TypeError detail))
  /\ match head (filter (fun p => Profile.user_id p = Some user_id)
                        (all_profiles (database (session w)))) with
     | Some profile =>
         if bool_decide (model_dump profile_update = [])
         then snd (update_profile profile_update user_id w) = w
         else session (snd (update_profile profile_update user_id w)) =
                mk_AsyncSession
                  (with_profile (database (session w)) user_id
                                (updated_profile profile profile_update)) []
     | None => snd (update_profile profile_update user_id w) = w
     end.
Proof.
  intros Hp. rewrite (update_profile_eval _ _ _ Hp).
  destruct (head _) as [profile|]; [|split; [eexists|]; reflexivity].
  destruct (bool_decide (model_dump profile_update = [])); split; try eexists; reflexivity.
Qed.

Lemma update_profile_outcomes_witness :
  let w := Demo.world Demo.no_redis Demo.with_jane Demo.no_minio in
  let w' := snd (@update_profile Demo.platform
                   (ProfileUpdate.mk None (Some "555-0100"%string) (Some "Porto"%string)
                                     None None) "u1" w) in
  (Profile.city <$> profiles (database (session w')) !! "u1"%string) = Some (Some "Porto"%string)
  /\ (Profile.slug <$> profiles (database (session w')) !! "u1"%string) =
       Some (Some "jane-doe-0a1b2c3d"%string).
Proof.
  intros w w'.
  destruct (@update_profile_outcomes Demo.platform
              (ProfileUpdate.mk None (Some "555-0100"%string) (Some "Porto"%string) None None)
              "u1" w eq_refl) as [_ Hcommit].
  assert (Hhead : head (filter (fun p => Profile.user_id p = Some "u1"%string)
                               (all_profiles (database (session w)))) =
                  Some Demo.jane_profile) by (vm_compute; reflexivity).
  rewrite Hhead in Hcommit. simpl in Hcommit. fold w' in Hcommit.
  rewrite Hcommit. split; reflexivity.
Defined.

(** ** Logging in and out *)

(** X20.  [login] never answers with a token.  Wrong credentials fail as
    [authenticate] fails; right credentials reach [refresh_token], which adds
    the integer settings to a [datetime] and raises [TypeError].  In no case is
    anything cached, stored or sent as a cookie. *)
Theorem login_never_returns `{!Platform} (email password : string) (now : Z) (w : World) :
  snd (login email password now w) = w
  /\ (forall e, fst (authenticate email password w) = Raise e ->
        fst (login email password now w) = Raise e)
  /\ (forall user, fst (authenticate email password w) = Return user ->
        fst (login email password now w) =
          Raise (TypeError
                   "unsupported operand type(s) for +: 'datetime.datetime' and 'int'")).
Proof.
  assert (Hrun : login email password now w =
                 match authenticate email password w with
                 | (Return _, w1) =>
                     (Raise (TypeError
                        "unsupported operand type(s) for +: 'datetime.datetime' and 'int'"),
                      w1)
                 | (Raise e, w1) => (Raise e, w1)
                 end).
  { unfold login, bind. destruct (authenticate email password w) as [[u|e] w1]; reflexivity. }
  rewrite Hrun, authenticate_eval.
  destruct (head _) as [u|]; [|repeat split; [intros e [= <-]; reflexivity|discriminate]].
  destruct (User.is_active u); simpl;
    [|repeat split; [intros e [= <-]; reflexivity|discriminate]].
  destruct (verify_password _ _); simpl;
    [|repeat split; [intros e [= <-]; reflexivity|discriminate]].
  repeat split; discriminate.
Qed.

(** X21.  [logout] touches the caller's entry only.  Whatever its outcome, the
    response gets exactly one instruction, to delete the refresh-token cookie;
    every other cache key keeps its entry; session and object store are
    untouched. *)
Theorem logout_touches_own_entry_only (user_id : string) (w : World) :
  let w' := snd (logout user_id w) in
  response w' = response w ++ [delete_cookie "refresh_token"]
  /\ session w' = session w
  /\ minio w' = minio w
  /\ (forall key, key <> refresh_token_key user_id ->
        entries (redis w') !! key = entries (redis w) !! key).
Proof.
  unfold logout, bind, response_delete_cookie.
  destruct (connected (redis w)) eqn:Hc.
  - rewrite cache_delete_connected by exact Hc. simpl.
    repeat split. intros key Hne. apply lookup_delete_ne. congruence.
  - rewrite cache_delete_disconnected by exact Hc. simpl. repeat split.
Qed.

(** ** What [update_user] preserves *)

Section Invariants.
Context `{!Platform}.

Lemma emails_unique_with_user_free (db : Database) (k : string) (v : User.t) :
  emails_unique db -> free_for db k (User.email v) ->
  emails_unique (with_user db k v).
Proof.
  intros Huniq Hfree k1 k2 u1 u2. unfold with_user. simpl.
  destruct (decide (k = k1)) as [<-|H1], (decide (k = k2)) as [<-|H2];
    rewrite ?lookup_insert_eq, ?lookup_insert_ne by assumption.
  - reflexivity.
  - intros [= <-] H2' He. symmetry. apply (Hfree _ _ H2'). congruence.
  - intros H1' [= <-] He. apply (Hfree _ _ H1'). congruence.
  - apply Huniq.
Qed.

Lemma update_user_cases (user_id : string) (email : option string)
    (role : option UserRole) (is_active : option bool) (w : World) :
  pending (session w) = [] ->
  keyed_by_id (database (session w)) ->
  emails_unique (database (session w)) ->
  (exists e, update_user user_id email role is_active w = (Raise e, w))
  \/ (exists u,
        users (database (session w)) !! user_id = Some u
        /\ free_for (database (session w)) user_id
                    (User.email (updated_user u email role is_active))
        /\ update_user user_id email role is_active w =
             (Return (updated_user u email role is_active),
              set_session (mk_AsyncSession
                             (with_user (database (session w)) user_id
                                        (updated_user u email role is_active)) []) w)).
Proof.
  intros Hp Hk Huniq.
  destruct (users (database (session w)) !! user_id) as [u|] eqn:Hrow.
  - destruct (changes_email u email
              && bool_decide (is_Some (head (filter
                   (fun v => User.email v = default ""%string email)
                   (all_users (database (session w))))))) eqn:Hc.
    + left. rewrite (update_user_eval _ _ _ _ _ u Hp Hrow), Hc. eauto.
    + right. exists u. split; [reflexivity|].
      assert (Hfree : forall new, email = Some new -> new <> ""%string ->
                                  free_for (database (session w)) user_id new).
      { intros new -> Hne k' u' Hk' He.
        destruct (decide (k' = user_id)) as [Heq|Hneq]; [exact Heq|exfalso].
        apply andb_false_iff in Hc as [Hch|Hhead].
        * unfold changes_email, str_bool in Hch.
          rewrite bool_decide_eq_false_2 in Hch by exact Hne. simpl in Hch.
          apply negb_false_iff, bool_decide_eq_true_1 in Hch.
          apply Hneq. apply (Huniq _ _ _ _ Hk' Hrow). congruence.
        * apply bool_decide_eq_false_1 in Hhead. apply Hhead. simpl.
          destruct (head _) as [v|] eqn:Hh; [eauto|].
          rewrite head_filter_None in Hh. destruct (Hh u'); [|exact He].
          apply elem_of_all_users. eauto. }
      split; [|apply update_user_returns; assumption].
      unfold updated_user. simpl. destruct email as [new|].
      * unfold str_bool. destruct (bool_decide_reflect (new = ""%string)) as [Hn|Hn]; simpl.
        -- apply free_for_own; assumption.
        -- apply Hfree; [reflexivity|exact Hn].
      * apply free_for_own; assumption.
  - left. exists user_not_found.
    unfold update_user, get_user_by_id, session_get_user.
    unfold bind at 1. unfold bind at 1. rewrite Hp. simpl. rewrite Hrow. reflexivity.
Qed.

End Invariants.

(** X22.  [update_user] keeps the database well formed: if every account is
    stored under its id and no two accounts share an address before the call,
    the same holds after it, whether the call returned or raised. *)
Theorem update_user_keeps_accounts_distinct `{!Platform}
    (user_id : string) (email : option string) (role : option UserRole)
    (is_active : option bool) (w : World) :
  pending (session w) = [] ->
  keyed_by_id (database (session w)) ->
  emails_unique (database (session w)) ->
  let db' := database (session (snd (update_user user_id email role is_active w))) in
  keyed_by_id db' /\ emails_unique db' /\ pending (session
     (snd (update_user user_id email role is_active w))) = [].
Proof.
  intros Hp Hk Huniq db'. unfold db'.
  destruct (update_user_cases user_id email role is_active w Hp Hk Huniq)
    as [[e Hrun]|(u & Hrow & Hfree & Hrun)]; rewrite Hrun; simpl.
  - auto.
  - split; [|split; [|reflexivity]].
    + replace user_id with (User.id (updated_user u email role is_active))
        by exact (Hk _ _ Hrow).
      apply keyed_by_id_with_user. exact Hk.
    + apply emails_unique_with_user_free; assumption.
Qed.

Lemma update_user_keeps_accounts_distinct_witness :
  let w := Demo.world Demo.no_redis Fixtures.two_accounts Demo.no_minio in
  emails_unique
    (database (session (snd (@update_user Demo.platform "u2" (Some "john@x.com"%string)
                               (Some ADMIN) None w)))).
Proof.
  intros w.
  apply (@update_user_keeps_accounts_distinct Demo.platform "u2" (Some "john@x.com"%string)
           (Some ADMIN) None w eq_refl two_accounts_keyed two_accounts_unique).
Defined.
